(** * The RabbitMQ bridge client, embedded and verified

    Source: [src/client/rabbitmq/rabbitmq_client.py].

    The client is a Python script.  Its effects (printing, calls on the pika
    channel, reading files, drawing random bytes, allocating objects) are kept
    in an explicit [world] that every operation threads; a raised exception
    keeps the world reached so far, as in Python.  What the script only
    calls and does not define (PyYAML, the broker behind pika, the host's
    files and random source) enters through three small interfaces. *)

From Stdlib Require Import String Ascii List ZArith Lia Bool DecimalString Sorted.
Import ListNotations.
Set Warnings "-register-all".
Local Open Scope list_scope.
Local Open Scope string_scope.

(** ** Python values *)

(** The values [yaml.safe_load] builds: scalars, sequences and mappings.
    Mappings keep insertion order and are keyed by strings, the only keys the
    client ever looks up.  A string is well-formed text, held as its UTF-8
    bytes.  Floats, timestamps, sets, binary scalars and strings with a lone
    surrogate are outside this fragment. *)
Inductive pyval : Type :=
| PNone
| PBool (b : bool)
| PInt (n : Z)
| PStr (s : string)
| PList (items : list pyval)
| PDict (items : list (string * pyval)).

(** Exceptions the client can meet.  [SystemExit] and [KeyboardInterrupt]
    are the ones that are not an [Exception], so [except Exception] lets them
    through.  [LibraryError] stands for the exception classes of a library
    that the script never names. *)
Inductive exn : Type :=
| KeyError (key : string)
| TypeError (msg : string)
| ValueError (msg : string)
| AttributeError (msg : string)
| IndexError (msg : string)
| AssertionError (msg : string)
| FileNotFoundError (path : string)
| YAMLError (msg : string)
| LibraryError (msg : string)
| AMQPConnectionError
| ChannelClosedByBroker
| KeyboardInterrupt
| SystemExit (code : Z).

Definition is_Exception (e : exn) : bool :=
  match e with SystemExit _ | KeyboardInterrupt => false | _ => true end.

Definition dquote : ascii := ascii_of_nat 34.
Definition squote : ascii := ascii_of_nat 39.
Definition backslash : ascii := ascii_of_nat 92.
Definition newline : ascii := ascii_of_nat 10.

Definition nl : string := String newline EmptyString.

Definition contains (c : ascii) (s : string) : bool :=
  existsb (Ascii.eqb c) (list_ascii_of_string s).

Definition hex_char (n : nat) : ascii :=
  nth n (list_ascii_of_string "0123456789abcdef") "0"%char.

(** [repr] of one character of a [str], inside quotes [q] (ASCII rules). *)
Definition repr_char (q c : ascii) : string :=
  let n := nat_of_ascii c in
  if Ascii.eqb c q then String backslash (String q EmptyString)
  else if Ascii.eqb c backslash then String backslash (String backslash EmptyString)
  else if Nat.eqb n 10 then String backslash "n"
  else if Nat.eqb n 13 then String backslash "r"
  else if Nat.eqb n 9 then String backslash "t"
  else if (Nat.ltb n 32 || Nat.eqb n 127)%bool
       then String backslash (String "x" (String (hex_char (n / 16)) (String (hex_char (n mod 16)) EmptyString)))
  else String c EmptyString.

(** [repr(s)] for a [str]: single quotes, unless the text has a single quote
    and no double quote. *)
Definition str_repr (s : string) : string :=
  let q := if (contains squote s && negb (contains dquote s))%bool then dquote else squote in
  String q (String.concat EmptyString (map (repr_char q) (list_ascii_of_string s)))
  ++ String q EmptyString.

(** The decimal text of an [int]. *)
(** [repr(b)] of a [bytes] object [b], and with it [str(b)]. *)
Definition bytes_repr_char (q c : ascii) : string :=
  let n := nat_of_ascii c in
  if Ascii.eqb c q then String backslash (String q EmptyString)
  else if Ascii.eqb c backslash then String backslash (String backslash EmptyString)
  else if Nat.eqb n 10 then String backslash "n"
  else if Nat.eqb n 13 then String backslash "r"
  else if Nat.eqb n 9 then String backslash "t"
  else if (Nat.ltb n 32 || Nat.leb 127 n)%bool
       then String backslash (String "x" (String (hex_char (n / 16))
                                            (String (hex_char (n mod 16)) EmptyString)))
  else String c EmptyString.

Definition bytes_repr (b : string) : string :=
  let q := if (contains squote b && negb (contains dquote b))%bool then dquote else squote in
  "b" ++ String q (String.concat EmptyString (map (bytes_repr_char q) (list_ascii_of_string b)))
  ++ String q EmptyString.

Definition int_str (n : Z) : string := NilZero.string_of_int (Z.to_int n).

(** CPython does not write an [int] of more than 4300 decimal digits as
    text (the default of [sys.int_max_str_digits], in 3.11 and later and in
    the security releases of 3.7 to 3.10): [str], [repr] and an f-string
    field raise [ValueError] on such a value, also when it sits inside a
    list or a dict.  PyYAML builds such values from hexadecimal literals. *)
Definition int_max_str_digits : Z := 4300.

Definition wide_int (n : Z) : bool := (10 ^ int_max_str_digits <=? Z.abs n)%Z.
Arguments wide_int n : simpl never.

Definition digits_limit_error : exn :=
  ValueError ("Exceeds the limit (4300 digits) for integer string conversion; "
              ++ "use sys.set_int_max_str_digits() to increase the limit").

Fixpoint py_repr (v : pyval) : string :=
  match v with
  | PNone => "None"
  | PBool true => "True"
  | PBool false => "False"
  | PInt n => int_str n
  | PStr s => str_repr s
  | PList items => "[" ++ String.concat ", " (map py_repr items) ++ "]"
  | PDict items =>
      "{" ++ String.concat ", "
               (map (fun kv => let '(k, x) := kv in str_repr k ++ ": " ++ py_repr x) items)
          ++ "}"
  end.

(** The text of [str(v)], which is also what an f-string field [{v}]
    inserts. *)
Definition py_str (v : pyval) : string :=
  match v with
  | PStr s => s
  | _ => py_repr v
  end.

(** Whether [v] holds an [int] that has no text. *)
Fixpoint has_wide_int (v : pyval) : bool :=
  match v with
  | PInt n => wide_int n
  | PList items => existsb has_wide_int items
  | PDict items => existsb (fun kv => let '(_, x) := kv in has_wide_int x) items
  | _ => false
  end.

(** [str(v)] and the f-string field [{v}] as operations: the text, or the
    [ValueError] of the digit limit. *)
Definition py_format (v : pyval) : string + exn :=
  if has_wide_int v then inr digits_limit_error else inl (py_str v).

Definition type_name (v : pyval) : string :=
  match v with
  | PNone => "NoneType"
  | PBool _ => "bool"
  | PInt _ => "int"
  | PStr _ => "str"
  | PList _ => "list"
  | PDict _ => "dict"
  end.

(** [bool(v)] *)
Definition truthy (v : pyval) : bool :=
  match v with
  | PNone => false
  | PBool b => b
  | PInt n => negb (Z.eqb n 0)
  | PStr s => negb (String.eqb s EmptyString)
  | PList items => match items with [] => false | _ => true end
  | PDict items => match items with [] => false | _ => true end
  end.

Fixpoint assoc {A : Type} (k : string) (d : list (string * A)) : option A :=
  match d with
  | [] => None
  | (k', x) :: d' => if String.eqb k k' then Some x else assoc k d'
  end.

(** [v[k]] with a string key. *)
Definition subscript (v : pyval) (k : string) : pyval + exn :=
  match v with
  | PDict items =>
      match assoc k items with
      | Some x => inl x
      | None => inr (KeyError k)
      end
  | PList _ => inr (TypeError "list indices must be integers or slices, not str")
  | PStr _ => inr (TypeError "string indices must be integers, not 'str'")
  | _ => inr (TypeError ("'" ++ type_name v ++ "' object is not subscriptable"))
  end.

(** [v.get(k, default)] *)
Definition dict_get (v : pyval) (k : string) (default : pyval) : pyval + exn :=
  match v with
  | PDict items =>
      match assoc k items with
      | Some x => inl x
      | None => inl default
      end
  | _ => inr (AttributeError ("'" ++ type_name v ++ "' object has no attribute 'get'"))
  end.

(** [str.upper] on ASCII text; other bytes are left as they are. *)
Definition upper_char (c : ascii) : ascii :=
  let n := nat_of_ascii c in
  if (Nat.leb 97 n && Nat.leb n 122)%bool then ascii_of_nat (n - 32) else c.

Fixpoint str_upper (s : string) : string :=
  match s with
  | EmptyString => EmptyString
  | String c s' => String (upper_char c) (str_upper s')
  end.

(** [v.upper()]: only a [str] has the method. *)
Definition py_upper (v : pyval) : string + exn :=
  match v with
  | PStr s => inl (str_upper s)
  | _ => inr (AttributeError ("'" ++ type_name v ++ "' object has no attribute 'upper'"))
  end.

(** [s.split(sep)] for a one-character separator: never empty. *)
Fixpoint str_split (sep : ascii) (s : string) : list string :=
  match s with
  | EmptyString => [EmptyString]
  | String c s' =>
      if Ascii.eqb c sep then EmptyString :: str_split sep s'
      else match str_split sep s' with
           | [] => [String c EmptyString]
           | h :: t => String c h :: t
           end
  end.

(** [s * n] *)
Fixpoint str_times (s : string) (n : nat) : string :=
  match n with
  | O => EmptyString
  | S n' => s ++ str_times s n'
  end.

(** [str(err)] as the handlers print it. *)
Definition exn_str (e : exn) : string :=
  match e with
  | KeyError k => str_repr k
  | TypeError m => m
  | ValueError m => m
  | AttributeError m => m
  | IndexError m => m
  | AssertionError m => m
  | FileNotFoundError p => "[Errno 2] No such file or directory: " ++ str_repr p
  | YAMLError m => m
  | LibraryError m => m
  | AMQPConnectionError => EmptyString
  | ChannelClosedByBroker => "(406, 'PRECONDITION_FAILED')"
  | KeyboardInterrupt => EmptyString
  | SystemExit c => int_str c
  end.

(** [os.path.join(a, b)] on a POSIX host. *)
Definition ends_with_slash (s : string) : bool :=
  match rev (list_ascii_of_string s) with
  | c :: _ => Ascii.eqb c "/"%char
  | [] => false
  end.

Definition path_join (a b : string) : string :=
  match b with
  | String "/"%char _ => b
  | _ => if (String.eqb a EmptyString || ends_with_slash a)%bool then a ++ b
         else a ++ "/" ++ b
  end.

(** ** The object store

    The request payload is a Python object that [send_simulation_request]
    copies, so it lives in a store of mutable objects addressed by
    references; a container holds references to its members, which is what
    makes a copy shallow. *)

Definition addr := nat.

Inductive hval : Type :=
| HNone
| HBool (b : bool)
| HInt (n : Z)
| HStr (s : string)
| HRef (a : addr).

Inductive hobj : Type :=
| OList (items : list hval)
| ODict (items : list (string * hval)).

Definition heap := list hobj.

(** A new object takes the next free address. *)
Definition alloc (o : hobj) (h : heap) : addr * heap := (length h, (h ++ [o])%list).

(** Building in the store the object graph of a freshly loaded document. *)
Fixpoint build (v : pyval) (h : heap) : hval * heap :=
  match v with
  | PNone => (HNone, h)
  | PBool b => (HBool b, h)
  | PInt n => (HInt n, h)
  | PStr s => (HStr s, h)
  | PList items =>
      let '(xs, h1) :=
        (fix go (l : list pyval) (h0 : heap) : list hval * heap :=
           match l with
           | [] => ([], h0)
           | x :: l' =>
               let '(x', h') := build x h0 in
               let '(xs', h'') := go l' h' in
               (x' :: xs', h'')
           end) items h in
      let '(a, h2) := alloc (OList xs) h1 in
      (HRef a, h2)
  | PDict items =>
      let '(xs, h1) :=
        (fix go (l : list (string * pyval)) (h0 : heap) : list (string * hval) * heap :=
           match l with
           | [] => ([], h0)
           | (k, x) :: l' =>
               let '(x', h') := build x h0 in
               let '(xs', h'') := go l' h' in
               ((k, x') :: xs', h'')
           end) items h in
      let '(a, h2) := alloc (ODict xs) h1 in
      (HRef a, h2)
  end.

(** Whether the object graph under [v] holds an [int] that has no text;
    [fuel] bounds the depth, and the number of objects is depth enough. *)
Fixpoint reaches_wide_int (fuel : nat) (h : heap) (v : hval) : bool :=
  match v with
  | HInt n => wide_int n
  | HRef a =>
      match fuel with
      | O => false
      | S fuel' =>
          match nth_error h a with
          | Some (OList items) => existsb (reaches_wide_int fuel' h) items
          | Some (ODict items) =>
              existsb (fun kv => reaches_wide_int fuel' h (snd kv)) items
          | None => false
          end
      end
  | _ => false
  end.

(** ** Observable effects *)

(** One entry per effect the script has on its surroundings.  The channel
    calls keep the arguments the script passes; where the script leaves an
    argument out, the entry holds pika's default for it. *)
Inductive event : Type :=
| Print (line : string)
| Traceback (e : exn)
| ThreadStart
| Connect (tls : bool) (host port vhost username password heartbeat : pyval)
| OpenChannel
| ExchangeDeclare (exchange exchange_type durable : pyval)
| QueueDeclare (queue : string) (durable : pyval)
| QueueBind (exchange : pyval) (queue : string) (routing_key : pyval)
| BasicPublish (exchange routing_key : pyval) (body : string)
               (delivery_mode : Z) (content_type message_id : string)
| BasicConsume (queue : option string)
| StartConsuming
| BasicAck (delivery_tag : Z) (multiple : bool)
| BasicNack (delivery_tag : Z) (multiple requeue : bool).

Record world : Type := World {
  trace : list event;   (* effects so far, oldest first *)
  store : heap;         (* the Python objects alive *)
  draws : nat           (* how many times os.urandom was read *)
}.

Definition init_world : world := World [] [] 0.

(** ** The libraries the script calls *)

Inductive load_result : Type :=
| Loaded (v : pyval)          (* the document *)
| Malformed (msg : string)    (* raises yaml.YAMLError *)
| Crashed (msg : string).     (* raises another Exception, e.g. ValueError *)

(** PyYAML: [yaml.safe_load] on a byte stream and the text [yaml.dump]
    writes for an object graph (a serializer: it reads the store and leaves
    it as it is). *)
Class YamlLib : Type := {
  safe_load : list Byte.byte -> load_result;
  dump : heap -> hval -> string
}.

(** The host: files by path, the directory of the script, the n-th 16-byte
    read of [os.urandom] as a big-endian integer, and whether the operator
    presses Ctrl+C while the script waits in its sleep loop. *)
Class Host : Type := {
  read_file : string -> option (list Byte.byte);
  script_dir : string;
  urandom16 : nat -> Z;
  ctrl_c : bool
}.

(** The broker behind a blocking pika connection: whether it accepts a
    synchronous request (connect, open channel, declare, bind), given what
    this connection did before. *)
Class Broker : Type := {
  accepts : list event -> event -> bool
}.

(** ** Computations with effects and exceptions *)

Inductive result (A : Type) : Type :=
| Ret (a : A)
| Raise (e : exn).
Arguments Ret {A} a.
Arguments Raise {A} e.

Definition M (A : Type) : Type := world -> result A * world.

Definition ret {A} (a : A) : M A := fun w => (Ret a, w).
Definition raise {A} (e : exn) : M A := fun w => (Raise e, w).

Definition bind {A B} (m : M A) (k : A -> M B) : M B :=
  fun w => match m w with
           | (Ret a, w') => k a w'
           | (Raise e, w') => (Raise e, w')
           end.

(** [try: m  except ...: h e]; [h] re-raises what no clause catches. *)
Definition try_except {A} (m : M A) (h : exn -> M A) : M A :=
  fun w => match m w with
           | (Ret a, w') => (Ret a, w')
           | (Raise e, w') => h e w'
           end.

Definition lift {A} (r : A + exn) : M A :=
  match r with
  | inl a => ret a
  | inr e => raise e
  end.

Declare Scope py_scope.
Delimit Scope py_scope with py.
Notation "x <- m ;; k" := (bind m (fun x => k))
  (at level 61, m at next level, right associativity) : py_scope.
Notation "m ;;; k" := (bind m (fun _ => k))
  (at level 61, right associativity) : py_scope.
Local Open Scope py_scope.

(** The world after some more effects. *)
Definition log (w : world) (evs : list event) : world :=
  World (trace w ++ evs)%list (store w) (draws w).

Definition emit (e : event) : M unit := fun w => (Ret tt, log w [e]).

(** [print(line)].  The strings of this development are well-formed text
    and standard output is open and takes UTF-8, so that writing a line does
    not fail. *)
Definition print (line : string) : M unit := emit (Print line).

(** What a computation added to the trace. *)
Definition emitted {A} (m : M A) (w : world) : list event :=
  skipn (length (trace w)) (trace (snd (m w))).

(** ** Message identifiers: [uuid.uuid4] and [str] of a UUID *)

(** [uuid4()] is [UUID(bytes=os.urandom(16), version=4)]: the 128-bit integer
    of the bytes, with the variant and version fields overwritten. *)
Definition uuid4_int (r : Z) : Z :=
  let i := (r mod 2 ^ 128)%Z in
  let i := Z.land i (Z.lnot (Z.shiftl 49152 48)) in   (* int &= ~(0xc000 << 48) *)
  let i := Z.lor i (Z.shiftl 32768 48) in             (* int |= 0x8000 << 48 *)
  let i := Z.land i (Z.lnot (Z.shiftl 61440 64)) in   (* int &= ~(0xf000 << 64) *)
  Z.lor i (Z.shiftl 4 76).                            (* int |= version << 76 *)

(** ['%0nx' % z]: the low [n] hexadecimal digits, most significant first. *)
Fixpoint hex_fixed (n : nat) (z : Z) : string :=
  match n with
  | O => EmptyString
  | S n' => hex_fixed n' (Z.shiftr z 4)
            ++ String (hex_char (Z.to_nat (Z.land z 15))) EmptyString
  end.

(** [str(u)]: the 32 digits grouped 8-4-4-4-12. *)
Definition uuid_str (u : Z) : string :=
  let hex := hex_fixed 32 u in
  substring 0 8 hex ++ "-" ++ substring 8 4 hex ++ "-" ++ substring 12 4 hex
  ++ "-" ++ substring 16 4 hex ++ "-" ++ substring 20 12 hex.

(** ** The client *)

(** [method] of a delivery: the frame pika hands to the callback. *)
Record Deliver : Type := {
  routing_key : string;
  delivery_tag : Z
}.

(** The fields of a [RabbitMQClient] object.  Its connection and channel are
    the ones whose calls the world's trace records. *)
Record client : Type := Client {
  config : pyval;
  dt_id : pyval;
  result_queue_name : option string
}.

(** What [main] has done when control leaves it. *)
Inductive progress : Type :=
| Returned     (* main() returned *)
| Blocked.     (* main() sits in [while True: time.sleep(1)] *)

Inductive status : Type :=
| Exit (code : Z)
| Sleeping.

Section Client.
Context {yaml : YamlLib} {host : Host} {broker : Broker}.

(** A synchronous request to the broker: sent, then accepted or refused. *)
Definition request (e : event) (refused : exn) : M unit :=
  fun w =>
    if accepts (trace w) e then (Ret tt, log w [e]) else (Raise refused, log w [e]).

Definition connect (tls : bool) (h p v user pass hb : pyval) : M unit :=
  request (Connect tls h p v user pass hb) AMQPConnectionError.
Definition open_channel : M unit := request OpenChannel ChannelClosedByBroker.
Definition exchange_declare (exchange exchange_type durable : pyval) : M unit :=
  request (ExchangeDeclare exchange exchange_type durable) ChannelClosedByBroker.
Definition queue_declare (queue : string) (durable : pyval) : M unit :=
  request (QueueDeclare queue durable) ChannelClosedByBroker.
Definition queue_bind (exchange : pyval) (queue : string) (rk : pyval) : M unit :=
  request (QueueBind exchange queue rk) ChannelClosedByBroker.
Definition basic_consume (queue : option string) : M unit :=
  request (BasicConsume queue) ChannelClosedByBroker.

(** Asynchronous frames: written to the channel, which is taken to stay
    open, no reply awaited.  pika's signatures are
    [basic_ack(delivery_tag=0, multiple=False)] and
    [basic_nack(delivery_tag=0, multiple=False, requeue=True)]. *)
Definition basic_ack (tag : Z) (multiple : bool) : M unit :=
  emit (BasicAck tag multiple).
Definition basic_nack (tag : Z) (multiple requeue : bool) : M unit :=
  emit (BasicNack tag multiple requeue).

(** The exchange and the routing key of a publish travel as AMQP short
    strings, text of at most 255 bytes.  pika's frame encoder asserts that
    the value is a string and raises [ShortStringTooLong], an exception of
    its own, on a longer one; the frame is encoded before anything is
    written, so that nothing is sent then. *)
Definition amqp_short_string (field : string) (v : pyval) : unit + exn :=
  match v with
  | PStr s =>
      if Nat.leb (String.length s) 255 then inl tt
      else inr (LibraryError (bytes_repr s))
  | _ => inr (AssertionError ("A non-string value was supplied for self." ++ field))
  end.

Definition basic_publish (exchange rk : pyval) (body : string)
    (delivery_mode : Z) (content_type message_id : string) : M unit :=
  lift (amqp_short_string "exchange" exchange) ;;;
  lift (amqp_short_string "routing_key" rk) ;;;
  emit (BasicPublish exchange rk body delivery_mode content_type message_id).

Definition yaml_safe_load (stream : list Byte.byte) : M pyval :=
  match safe_load stream with
  | Loaded v => ret v
  | Malformed msg => raise (YAMLError msg)
  | Crashed msg => raise (LibraryError msg)
  end.

Definition open_read (path : string) : M (list Byte.byte) :=
  match read_file path with
  | Some content => ret content
  | None => raise (FileNotFoundError path)
  end.

(** [load_config], lines 12-22. *)
Definition load_config (config_path : string) : M pyval :=
  try_except
    (content <- open_read config_path ;;
     yaml_safe_load content)
    (fun err =>
       match err with
       | FileNotFoundError _ =>
           print ("Error: Configuration file '" ++ config_path ++ "' not found.") ;;;
           raise (SystemExit 1)
       | YAMLError msg =>
           print ("Error parsing YAML file: " ++ msg) ;;;
           raise (SystemExit 1)
       | _ => raise err
       end).

(** The name of the result queue, lines 86-89: the text, and the f-string
    that builds it, which raises when a field has no text. *)
Definition queue_name (result_queue_prefix identity : pyval) : string :=
  py_str result_queue_prefix ++ "." ++ py_str identity ++ ".result".

Definition queue_name_fstring (result_queue_prefix identity : pyval) : string + exn :=
  match py_format result_queue_prefix with
  | inl prefix =>
      match py_format identity with
      | inl id => inl (prefix ++ "." ++ id ++ ".result")
      | inr e => inr e
      end
  | inr e => inr e
  end.

(** [setup_infrastructure], lines 66-96; returns [self] as it leaves it. *)
Definition setup_infrastructure (self : client) : M client :=
  exchanges <- lift (subscript (config self) "exchanges") ;;
  input_ex <- lift (subscript exchanges "input_bridge") ;;
  exchanges' <- lift (subscript (config self) "exchanges") ;;
  result_ex <- lift (subscript exchanges' "bridge_result") ;;
  queue_cfg <- lift (subscript (config self) "queue") ;;
  in_name <- lift (subscript input_ex "name") ;;
  in_type <- lift (subscript input_ex "type") ;;
  in_durable <- lift (subscript input_ex "durable") ;;
  exchange_declare in_name in_type in_durable ;;;
  res_name <- lift (subscript result_ex "name") ;;
  res_type <- lift (subscript result_ex "type") ;;
  res_durable <- lift (subscript result_ex "durable") ;;
  exchange_declare res_name res_type res_durable ;;;
  prefix <- lift (subscript queue_cfg "result_queue_prefix") ;;
  name <- lift (queue_name_fstring prefix (dt_id self)) ;;
  let self := Client (config self) (dt_id self) (Some name) in
  q_durable <- lift (subscript queue_cfg "durable") ;;
  queue_declare name q_durable ;;;
  bind_exchange <- lift (subscript result_ex "name") ;;
  bind_key <- lift (subscript queue_cfg "routing_key") ;;
  queue_bind bind_exchange name bind_key ;;;
  ret self.

(** [RabbitMQClient.__init__], lines 28-64.  The settings go to pika as
    they are; the checks pika makes on the types of the connection
    parameters before it connects are not modelled. *)
Definition RabbitMQClient_init (config : pyval) : M client :=
  digital_twin <- lift (subscript config "digital_twin") ;;
  dt_id <- lift (subscript digital_twin "dt_id") ;;
  rabbitmq_cfg <- lift (subscript config "rabbitmq") ;;
  username <- lift (subscript rabbitmq_cfg "username") ;;
  password <- lift (subscript rabbitmq_cfg "password") ;;
  use_tls <- lift (dict_get rabbitmq_cfg "tls" (PBool false)) ;;
  (if truthy use_tls then
     ssl_host <- lift (subscript rabbitmq_cfg "host") ;;
     h <- lift (subscript rabbitmq_cfg "host") ;;
     p <- lift (dict_get rabbitmq_cfg "port" (PInt 5671)) ;;
     v <- lift (dict_get rabbitmq_cfg "vhost" (PStr "/")) ;;
     hb <- lift (dict_get rabbitmq_cfg "heartbeat" (PInt 600)) ;;
     connect true h p v username password hb
   else
     h <- lift (subscript rabbitmq_cfg "host") ;;
     p <- lift (dict_get rabbitmq_cfg "port" (PInt 5672)) ;;
     v <- lift (dict_get rabbitmq_cfg "vhost" (PStr "/")) ;;
     hb <- lift (dict_get rabbitmq_cfg "heartbeat" (PInt 600)) ;;
     connect false h p v username password hb) ;;;
  open_channel ;;;
  setup_infrastructure (Client config dt_id None).

Definition htype_name (v : hval) (h : heap) : string :=
  match v with
  | HNone => "NoneType"
  | HBool _ => "bool"
  | HInt _ => "int"
  | HStr _ => "str"
  | HRef a => match nth_error h a with
              | Some (ODict _) => "dict"
              | _ => "list"
              end
  end.

(** The dict display [{**v}]: a new dict object with the entries of the
    mapping [v]; a [TypeError] when [v] is not a mapping. *)
Definition dict_display (v : hval) : M hval :=
  fun w =>
    match v with
    | HRef a =>
        match nth_error (store w) a with
        | Some (ODict items) =>
            let '(a', h') := alloc (ODict items) (store w) in
            (Ret (HRef a'), World (trace w) h' (draws w))
        | _ => (Raise (TypeError "'list' object is not a mapping"), w)
        end
    | _ => (Raise (TypeError ("'" ++ htype_name v (store w) ++ "' object is not a mapping")), w)
    end.

(** [yaml.dump(v, default_flow_style=False)]: the representer writes an
    [int] with [str], so the digit limit applies to every one it reaches. *)
Definition yaml_dump (v : hval) : M string :=
  fun w =>
    if reaches_wide_int (S (length (store w))) (store w) v
    then (Raise digits_limit_error, w)
    else (Ret (dump (store w) v), w).

(** [uuid.uuid4()]: one read of the random source. *)
Definition uuid4 : M Z :=
  fun w => (Ret (uuid4_int (urandom16 (draws w))),
            World (trace w) (store w) (S (draws w))).

(** [send_simulation_request], lines 98-116. *)
Definition send_simulation_request (self : client) (payload_data : hval) : M unit :=
  payload <- dict_display payload_data ;;
  payload_yaml <- yaml_dump payload ;;
  digital_twin <- lift (subscript (config self) "digital_twin") ;;
  rk <- lift (subscript digital_twin "routing_key_send") ;;
  exchanges <- lift (subscript (config self) "exchanges") ;;
  input_bridge <- lift (subscript exchanges "input_bridge") ;;
  exchange <- lift (subscript input_bridge "name") ;;
  u <- uuid4 ;;
  basic_publish exchange rk payload_yaml 2 "application/x-yaml" (uuid_str u).

(** [xs[0]] *)
Definition first_item (xs : list string) : string + exn :=
  match xs with
  | x :: _ => inl x
  | [] => inr (IndexError "list index out of range")
  end.

(** The three lines that show a result to the operator, lines 124-126.
    Each line is built when its [print] is reached. *)
Definition present (self : client) (source : string) (result : pyval) : M unit :=
  tag <- lift (py_upper (dt_id self)) ;;
  print (nl ++ "[" ++ tag ++ "] Received result from " ++ source ++ ":") ;;;
  text <- lift (py_format result) ;;
  print ("Result: " ++ text) ;;;
  print (str_times "-" 50).

(** [handle_result], lines 118-135.  [basic_ack] and [basic_nack] are called
    with the delivery tag only, so the other arguments are pika's defaults. *)
Definition handle_result (self : client) (method : Deliver) (body : list Byte.byte) : M unit :=
  try_except
    (source <- lift (first_item (str_split "."%char (routing_key method))) ;;
     result <- yaml_safe_load body ;;
     present self source result ;;;
     basic_ack (delivery_tag method) false)
    (fun err =>
       match err with
       | YAMLError _ =>
           print ("Error decoding YAML result: " ++ exn_str err) ;;;
           basic_nack (delivery_tag method) false true
       | _ =>
           if is_Exception err then
             print ("Error processing the result: " ++ exn_str err) ;;;
             basic_nack (delivery_tag method) false true
           else raise err
       end).

(** pika's [start_consuming]: every delivery that arrives goes to the
    callback, in order of arrival; an exception of the callback ends it. *)
Fixpoint start_consuming (on_message : Deliver -> list Byte.byte -> M unit)
    (incoming : list (Deliver * list Byte.byte)) : M unit :=
  match incoming with
  | [] => ret tt
  | (method, body) :: rest =>
      on_message method body ;;; start_consuming on_message rest
  end.

(** [start_listening], lines 137-144, on the deliveries that arrive. *)
Definition start_listening (self : client)
    (incoming : list (Deliver * list Byte.byte)) : M unit :=
  basic_consume (result_queue_name self) ;;;
  tag <- lift (py_upper (dt_id self)) ;;
  print (" [" ++ tag ++ "] Listening for simulation results...") ;;;
  emit StartConsuming ;;;
  start_consuming (handle_result self) incoming.

(** [load_yaml_file], lines 146-150: the loaded document is a new object. *)
Definition load_yaml_file (file_path : string) : M hval :=
  content <- open_read file_path ;;
  doc <- yaml_safe_load content ;;
  fun w => let '(v, h) := build doc (store w) in
           (Ret v, World (trace w) h (draws w)).

(** [start_dt_listener], lines 153-156: the body of the listener thread. *)
Definition start_dt_listener (config : pyval)
    (incoming : list (Deliver * list Byte.byte)) : M unit :=
  dt <- RabbitMQClient_init config ;;
  start_listening dt incoming.

(** [os.path.join(base_dir, p)]: [p] must be a path string. *)
Definition os_path_join (base_dir : string) (p : pyval) : string + exn :=
  match p with
  | PStr s => inl (path_join base_dir s)
  | _ => inr (TypeError ("join() argument must be str, bytes, or os.PathLike object, not '"
                         ++ type_name p ++ "'"))
  end.

(** The sleep loop of lines 180-181, which has no effect of its own: the
    script stays in it, unless the operator presses Ctrl+C, which raises
    [KeyboardInterrupt] in the main thread.  An interrupt that comes before
    the loop is reached is outside this model. *)
Definition sleep_forever : M progress :=
  if ctrl_c then raise KeyboardInterrupt else ret Blocked.

(** [main], lines 159-186, as the primary thread runs it.  [ThreadStart]
    marks [listener_thread.start()]; the listener's own effects are those of
    [start_dt_listener]. *)
Definition main : M progress :=
  config <- load_config "rabbitmq_use.yaml" ;;
  emit ThreadStart ;;;
  dt <- RabbitMQClient_init config ;;
  payload_file <- lift (subscript config "payload_file") ;;
  yaml_file_path <- lift (os_path_join script_dir payload_file) ;;
  try_except
    (simulation_payload <- load_yaml_file yaml_file_path ;;
     send_simulation_request dt simulation_payload ;;;
     print (nl ++ "Press Ctrl+C to terminate the program...") ;;;
     sleep_forever)
    (fun err =>
       match err with
       | KeyboardInterrupt =>
           print (nl ++ "Program terminated by the user.") ;;; ret Returned
       | _ =>
           if is_Exception err then
             print ("Error: " ++ exn_str err) ;;; ret Returned
           else raise err
       end).

(** The interpreter around [main()]: a return ends the process with status
    0, [sys.exit(c)] with status [c], an uncaught exception with a traceback
    and status 1; an uncaught [KeyboardInterrupt], which [main] never lets
    through from its wait, would end it with a traceback and, as a shell
    reports it, status 130. *)
Definition run_script (w : world) : status * world :=
  match main w with
  | (Ret Returned, w') => (Exit 0, w')
  | (Ret Blocked, w') => (Sleeping, w')
  | (Raise (SystemExit c), w') => (Exit c, w')
  | (Raise KeyboardInterrupt, w') => (Exit 130, log w' [Traceback KeyboardInterrupt])
  | (Raise e, w') => (Exit 1, log w' [Traceback e])
  end.

End Client.

(** ** A concrete setting for running the client

    A deployment with one configuration file and one payload file, a broker
    that accepts every request, and PyYAML's answers on the few documents
    that occur below. *)
Module Demo.

Definition config_text : string :=
  "rabbitmq: {host: localhost, username: guest, password: guest}" ++ nl ++
  "digital_twin: {dt_id: dt, routing_key_send: dt.sim}" ++ nl ++
  "exchanges:" ++ nl ++
  "  input_bridge: {name: ex.input, type: topic, durable: true}" ++ nl ++
  "  bridge_result: {name: ex.result, type: topic, durable: true}" ++ nl ++
  "queue: {result_queue_prefix: Q, durable: true, routing_key: '*.result'}" ++ nl ++
  "payload_file: simulation.yaml" ++ nl.

Definition config_doc : pyval :=
  PDict [
    ("rabbitmq", PDict [("host", PStr "localhost"); ("username", PStr "guest");
                        ("password", PStr "guest")]);
    ("digital_twin", PDict [("dt_id", PStr "dt"); ("routing_key_send", PStr "dt.sim")]);
    ("exchanges", PDict [
       ("input_bridge", PDict [("name", PStr "ex.input"); ("type", PStr "topic");
                               ("durable", PBool true)]);
       ("bridge_result", PDict [("name", PStr "ex.result"); ("type", PStr "topic");
                                ("durable", PBool true)])]);
    ("queue", PDict [("result_queue_prefix", PStr "Q"); ("durable", PBool true);
                     ("routing_key", PStr "*.result")]);
    ("payload_file", PStr "simulation.yaml")].

Definition payload_text : string := "task: run" ++ nl ++ "id: 1" ++ nl.
Definition payload_doc : pyval := PDict [("task", PStr "run"); ("id", PInt 1)].

(** A hexadecimal literal of 4000 digits, which loads as the [int]
    [16 ^ 4000 - 1], a number of 4817 decimal digits. *)
Definition wide_text : string := "0x" ++ str_times "f" 4000.
Definition wide_doc : pyval := PInt (16 ^ 4000 - 1).

Definition documents : list (string * load_result) :=
  [ (EmptyString, Loaded PNone);
    ("~", Loaded PNone);
    (config_text, Loaded config_doc);
    (payload_text, Loaded payload_doc);
    ("status: ok", Loaded (PDict [("status", PStr "ok")]));
    (wide_text, Loaded wide_doc);
    ("when: 2001-02-30", Crashed "day is out of range for month") ].

Definition hscalar (v : hval) : string :=
  match v with
  | HNone => "null"
  | HBool true => "true"
  | HBool false => "false"
  | HInt n => int_str n
  | HStr s => s
  | HRef _ => "..."
  end.

(** [yaml.dump] writes the entries of a mapping sorted by key. *)
Fixpoint insert_entry (kv : string * hval) (l : list (string * hval))
  : list (string * hval) :=
  match l with
  | [] => [kv]
  | x :: l' => if String.leb (fst kv) (fst x) then kv :: l else x :: insert_entry kv l'
  end.

Definition sort_entries (l : list (string * hval)) : list (string * hval) :=
  fold_right insert_entry [] l.

#[local] Instance yaml : YamlLib := {
  safe_load stream :=
    match assoc (string_of_list_byte stream) documents with
    | Some r => r
    | None => Malformed "could not parse the document"
    end;
  dump h v :=
    match v with
    | HRef a =>
        match nth_error h a with
        | Some (ODict items) =>
            String.concat EmptyString
              (map (fun kv => fst kv ++ ": " ++ hscalar (snd kv) ++ nl)
                   (sort_entries items))
        | _ => "[...]" ++ nl
        end
    | _ => hscalar v ++ nl
    end
}.

Definition files (with_config with_payload : bool) (path : string)
  : option (list Byte.byte) :=
  if (with_config && String.eqb path "rabbitmq_use.yaml")%bool
  then Some (list_byte_of_string config_text)
  else if (with_payload && String.eqb path "/opt/client/simulation.yaml")%bool
  then Some (list_byte_of_string payload_text)
  else None.

(** The host, with or without each of the two files; the random source
    returns [seed n] on its n-th read; the operator lets the script wait. *)
Definition host_with (with_config with_payload : bool) (seed : nat -> Z) : Host := {|
  read_file := files with_config with_payload;
  script_dir := "/opt/client";
  urandom16 := seed;
  ctrl_c := false
|}.

#[local] Instance host : Host := host_with true true (fun n => Z.of_nat n * 2 ^ 100 + 12345)%Z.

(** The same host, with an operator who presses Ctrl+C during the wait. *)
Definition interrupted_host : Host := {|
  read_file := files true true;
  script_dir := "/opt/client";
  urandom16 := fun n => (Z.of_nat n * 2 ^ 100 + 12345)%Z;
  ctrl_c := true
|}.

#[local] Instance broker : Broker := {| accepts := fun _ _ => true |}.

Definition dt : client := Client config_doc (PStr "dt") (Some "Q.dt.result").

Definition deliver (rk : string) (tag : Z) : Deliver :=
  {| routing_key := rk; delivery_tag := tag |}.

End Demo.

(** ** Vocabulary of the properties *)

Definition is_topology (e : event) : bool :=
  match e with
  | ExchangeDeclare _ _ _ | QueueDeclare _ _ | QueueBind _ _ _ => true
  | _ => false
  end.

(** Exchanges come first, queues second, bindings third. *)
Definition rank (e : event) : nat :=
  match e with
  | ExchangeDeclare _ _ _ => 0
  | QueueDeclare _ _ => 1
  | QueueBind _ _ _ => 2
  | _ => 3
  end.

(** The outcome a delivery is given on the channel: acknowledged or rejected. *)
Definition is_outcome (e : event) : bool :=
  match e with
  | BasicAck _ _ | BasicNack _ _ _ => true
  | _ => false
  end.

Definition outcomes (evs : list event) : list event := filter is_outcome evs.

Definition is_print (e : event) : bool :=
  match e with
  | Print _ => true
  | _ => false
  end.

(** A single rejection of [tag] that tells the broker not to requeue. *)
Definition rejected_without_requeue (tag : Z) (evs : list event) : Prop :=
  exists multiple, outcomes evs = [BasicNack tag multiple false].

(** The first dot-delimited segment of a routing key: what stands before the
    first dot, or the whole key when it has none. *)
Fixpoint first_segment (s : string) : string :=
  match s with
  | EmptyString => EmptyString
  | String c s' => if Ascii.eqb c "."%char then EmptyString
                   else String c (first_segment s')
  end.

(** The lines that show [result] from [source] for the twin whose upper-cased
    identity is [tag]. *)
Definition shown (tag source : string) (result : pyval) : list event :=
  [ Print (nl ++ "[" ++ tag ++ "] Received result from " ++ source ++ ":");
    Print ("Result: " ++ py_str result);
    Print (str_times "-" 50) ].

(** A client that is listening: its [start_listening] got as far as the
    consume loop, the only place from which [handle_result] is called. *)
Definition listening {yaml : YamlLib} {broker : Broker} (self : client) : Prop :=
  exists w w', start_listening self [] w = (Ret tt, w').

(** The queue an operation names, for the operations that name one. *)
Definition queue_of (e : event) : option (option string) :=
  match e with
  | QueueDeclare q _ => Some (Some q)
  | QueueBind _ q _ => Some (Some q)
  | BasicConsume q => Some q
  | _ => None
  end.

Definition is_publish (e : event) : bool :=
  match e with
  | BasicPublish _ _ _ _ _ _ => true
  | _ => false
  end.

Definition is_connect (e : event) : bool :=
  match e with
  | Connect _ _ _ _ _ _ _ => true
  | _ => false
  end.

(** The text form of a version-4 UUID: 36 characters, hyphens at positions
    8, 13, 18 and 23, lower-case hexadecimal digits elsewhere, the version
    digit [4] at position 14 and a variant digit among [8 9 a b] at 19. *)
Definition is_hex (c : ascii) : bool :=
  existsb (Ascii.eqb c) (list_ascii_of_string "0123456789abcdef").

Fixpoint uuid_chars (i : nat) (l : list ascii) : bool :=
  match l with
  | [] => true
  | c :: l' =>
      (if existsb (Nat.eqb i) [8; 13; 18; 23]%nat then Ascii.eqb c "-"%char
       else if Nat.eqb i 14 then Ascii.eqb c "4"%char
       else if Nat.eqb i 19 then existsb (Ascii.eqb c) (list_ascii_of_string "89ab")
       else is_hex c)
      && uuid_chars (S i) l'
  end.

Definition uuid_formatted (s : string) : bool :=
  (Nat.eqb (String.length s) 36 && uuid_chars 0 (list_ascii_of_string s))%bool.

(** The bits of a random read that [uuid4] keeps (122 of 128), and the bits
    it sets. *)
Definition kept_bits : Z :=
  (2 ^ 128 - 1 - (2 ^ 62 + 2 ^ 63) - (2 ^ 76 + 2 ^ 77 + 2 ^ 78 + 2 ^ 79))%Z.
Definition fixed_bits : Z := (2 ^ 63 + 2 ^ 78)%Z.

Definition message_id_of (e : event) : option string :=
  match e with
  | BasicPublish _ _ _ _ _ id => Some id
  | _ => None
  end.

(** The digit of weight [16 ^ k]. *)
Definition digit (z : Z) (k : nat) : ascii :=
  hex_char (Z.to_nat (Z.land (Z.shiftr z (4 * Z.of_nat k)) 15)).

(** The value of a hexadecimal digit. *)
Definition hex_val (c : ascii) : nat :=
  let n := nat_of_ascii c in if Nat.leb 97 n then n - 87 else n - 48.

(** A fatal configuration error as the operator should see it: a diagnostic
    is printed, the process exits with a non-zero status, and no connection
    to the broker has been attempted. *)
Definition reports_and_exits_before_connecting (run : status * world) : Prop :=
  (exists code, fst run = Exit code /\ code <> 0%Z)
  /\ existsb is_print (trace (snd run)) = true
  /\ existsb is_connect (trace (snd run)) = false.

(** The two execution contexts of the program. *)
Inductive context : Type := Primary | Listener.

(** The ways two threads' effects can fall in time: each thread's order is
    kept, nothing else is. *)
Inductive interleaving {A : Type} : list A -> list A -> list A -> Prop :=
| interleaving_nil : interleaving [] [] []
| interleaving_left x l r t : interleaving l r t -> interleaving (x :: l) r (x :: t)
| interleaving_right x l r t : interleaving l r t -> interleaving l (x :: r) (x :: t).

(** An execution of the program in which the configuration was loaded.  The
    primary context runs the script from the initial world; its first effect
    is [ThreadStart], and from there its effects interleave with those of
    the listener thread, which runs [start_dt_listener] on the loaded
    configuration, with its own connection and channel, and has got to some
    point of it (it is a daemon thread and ends with the process). *)
Definition execution {yaml : YamlLib} {host : Host} {broker : Broker}
    (incoming : list (Deliver * list Byte.byte)) (t : list (context * event)) : Prop :=
  exists cfg w0 after done rest t',
    load_config "rabbitmq_use.yaml" init_world = (Ret cfg, w0)
    /\ trace (snd (run_script init_world)) = ThreadStart :: after
    /\ trace (snd (start_dt_listener cfg incoming init_world)) = (done ++ rest)%list
    /\ interleaving (map (pair Primary) after) (map (pair Listener) done) t'
    /\ t = (Primary, ThreadStart) :: t'.

(** Every event that satisfies [q] comes after one that satisfies [p]. *)
Definition preceded_by {A : Type} (p q : A -> bool) (t : list A) : Prop :=
  forall pre x post, t = (pre ++ x :: post)%list -> q x = true -> existsb p pre = true.

Definition primary_publish (x : context * event) : bool :=
  match x with
  | (Primary, BasicPublish _ _ _ _ _ _) => true
  | _ => false
  end.

(** The last step of the listener's topology declaration. *)
Definition listener_bound (x : context * event) : bool :=
  match x with
  | (Listener, QueueBind _ _ _) => true
  | _ => false
  end.

Definition declares (c : context) (queue : string) (x : context * event) : bool :=
  match x, c with
  | (Primary, QueueDeclare q _), Primary => String.eqb q queue
  | (Listener, QueueDeclare q _), Listener => String.eqb q queue
  | _, _ => false
  end.

Definition binds (c : context) (queue : string) (x : context * event) : bool :=
  match x, c with
  | (Primary, QueueBind _ q _), Primary => String.eqb q queue
  | (Listener, QueueBind _ q _), Listener => String.eqb q queue
  | _, _ => false
  end.

(** One execution of the demo deployment: the primary context runs up to its
    wait before the listener thread has done anything. *)
Module DemoRun.

Definition topology (c : context) : list (context * event) :=
  [ (c, Connect false (PStr "localhost") (PInt 5672) (PStr "/") (PStr "guest")
          (PStr "guest") (PInt 600));
    (c, OpenChannel);
    (c, ExchangeDeclare (PStr "ex.input") (PStr "topic") (PBool true));
    (c, ExchangeDeclare (PStr "ex.result") (PStr "topic") (PBool true));
    (c, QueueDeclare "Q.dt.result" (PBool true));
    (c, QueueBind (PStr "ex.result") "Q.dt.result" (PStr "*.result")) ].

Definition the_request : context * event :=
  (Primary, BasicPublish (PStr "ex.input") (PStr "dt.sim")
              ("id: 1" ++ nl ++ "task: run" ++ nl) 2 "application/x-yaml"
              "00000000-0000-4000-8000-000000003039").

Definition before_request : list (context * event) :=
  (Primary, ThreadStart) :: topology Primary.

Definition after_request : list (context * event) :=
  (Primary, Print (nl ++ "Press Ctrl+C to terminate the program..."))
  :: (topology Listener
      ++ [ (Listener, BasicConsume (Some "Q.dt.result"));
           (Listener, Print " [DT] Listening for simulation results...");
           (Listener, StartConsuming) ])%list.

Definition primary_first : list (context * event) :=
  (before_request ++ the_request :: after_request)%list.

End DemoRun.

(** ** Vocabulary of the further properties *)

(** The delivery tag an outcome answers. *)
Definition outcome_tag (e : event) : option Z :=
  match e with
  | BasicAck t _ | BasicNack t _ _ => Some t
  | _ => None
  end.

(** A setting with a default: what [items.get(k, default)] evaluates to. *)
Definition setting (items : list (string * pyval)) (k : string) (default : pyval) : pyval :=
  match assoc k items with
  | Some x => x
  | None => default
  end.

(** A setting reached by two or three keys: [cfg[a][b]], [cfg[a][b][c]]. *)
Definition at2 (cfg : pyval) (a b : string) : option pyval :=
  match subscript cfg a with
  | inl x => match subscript x b with inl y => Some y | inr _ => None end
  | inr _ => None
  end.

Definition at3 (cfg : pyval) (a b c : string) : option pyval :=
  match at2 cfg a b with
  | Some x => match subscript x c with inl y => Some y | inr _ => None end
  | None => None
  end.

(** The connection a client asks for, given the [rabbitmq] section of the
    configuration: TLS when [tls] is set to a true value, port 5671 with TLS
    and 5672 without unless [port] is given, virtual host [/] and heartbeat
    600 unless given. *)
Definition connection_request (items : list (string * pyval))
    (host username password : pyval) : event :=
  let tls := truthy (setting items "tls" (PBool false)) in
  Connect tls host
    (setting items "port" (PInt (if tls then 5671 else 5672)))
    (setting items "vhost" (PStr "/"))
    username password
    (setting items "heartbeat" (PInt 600)).

(** The entries of the mapping a value refers to, when it refers to one. *)
Definition mapping_items (h : heap) (v : hval) : option (list (string * hval)) :=
  match v with
  | HRef a => match nth_error h a with
              | Some (ODict items) => Some items
              | _ => None
              end
  | _ => None
  end.

Definition is_start_consuming (e : event) : bool :=
  match e with
  | StartConsuming => true
  | _ => false
  end.

(** The demo configuration with a numeric identity, as [dt_id: 42] loads. *)
Definition numeric_identity_config : pyval :=
  PDict [
    ("rabbitmq", PDict [("host", PStr "localhost"); ("username", PStr "guest");
                        ("password", PStr "guest")]);
    ("digital_twin", PDict [("dt_id", PInt 42); ("routing_key_send", PStr "dt.sim")]);
    ("exchanges", PDict [
       ("input_bridge", PDict [("name", PStr "ex.input"); ("type", PStr "topic");
                               ("durable", PBool true)]);
       ("bridge_result", PDict [("name", PStr "ex.result"); ("type", PStr "topic");
                                ("durable", PBool true)])]);
    ("queue", PDict [("result_queue_prefix", PStr "Q"); ("durable", PBool true);
                     ("routing_key", PStr "*.result")]);
    ("payload_file", PStr "simulation.yaml")].

(** What pika takes as the exchange or the routing key of a publish: a
    string of at most 255 bytes. *)
Definition is_short_string (v : pyval) : bool :=
  match v with
  | PStr s => Nat.leb (String.length s) 255
  | _ => false
  end.

(** A client whose configuration has a numeric routing key, as
    [routing_key_send: 5] loads. *)
Definition numeric_key_client : client :=
  Client
    (PDict [
       ("digital_twin", PDict [("dt_id", PStr "dt"); ("routing_key_send", PInt 5)]);
       ("exchanges", PDict [
          ("input_bridge", PDict [("name", PStr "ex.input"); ("type", PStr "topic");
                                  ("durable", PBool true)])])])
    (PStr "dt") (Some "Q.dt.result").

(** The lines the primary thread prints around its wait. *)
Definition press_ctrl_c : event := Print (nl ++ "Press Ctrl+C to terminate the program...").
Definition terminated_by_user : event := Print (nl ++ "Program terminated by the user.").

(** * Properties *)

(** ** The builtins and the demo deployment at work *)

Example py_str_dict :
  py_str (PDict [("status", PStr "ok"); ("n", PInt (-3)); ("l", PList [PNone; PBool true])])
  = "{'status': 'ok', 'n': -3, 'l': [None, True]}".
Proof. reflexivity. Qed.

Example str_split_demo :
  str_split "."%char "solverA.done.x" = ["solverA"; "done"; "x"]
  /\ str_split "."%char "" = [EmptyString]
  /\ str_split "."%char ".a." = [EmptyString; "a"; EmptyString].
Proof. repeat split; reflexivity. Qed.

Example path_join_demo :
  path_join "/opt/client" "simulation.yaml" = "/opt/client/simulation.yaml"
  /\ path_join "/opt/client" "/etc/p.yaml" = "/etc/p.yaml".
Proof. split; reflexivity. Qed.

Example uuid_str_demo :
  uuid_str (uuid4_int 0) = "00000000-0000-4000-8000-000000000000"
  /\ uuid_str (uuid4_int (2 ^ 128 - 1)) = "ffffffff-ffff-4fff-bfff-ffffffffffff".
Proof. split; vm_compute; reflexivity. Qed.

Example demo_main_runs :
  @run_script Demo.yaml Demo.host Demo.broker init_world
  = (Sleeping,
     World [ ThreadStart;
             Connect false (PStr "localhost") (PInt 5672) (PStr "/") (PStr "guest")
                     (PStr "guest") (PInt 600);
             OpenChannel;
             ExchangeDeclare (PStr "ex.input") (PStr "topic") (PBool true);
             ExchangeDeclare (PStr "ex.result") (PStr "topic") (PBool true);
             QueueDeclare "Q.dt.result" (PBool true);
             QueueBind (PStr "ex.result") "Q.dt.result" (PStr "*.result");
             BasicPublish (PStr "ex.input") (PStr "dt.sim")
               ("id: 1" ++ nl ++ "task: run" ++ nl) 2 "application/x-yaml"
               "00000000-0000-4000-8000-000000003039";
             Print (nl ++ "Press Ctrl+C to terminate the program...") ]
           [ ODict [("task", HStr "run"); ("id", HInt 1)];
             ODict [("task", HStr "run"); ("id", HInt 1)] ]
           1).
Proof. vm_compute. reflexivity. Qed.

Example demo_scenario_A :
  @handle_result Demo.yaml Demo.dt (Demo.deliver "solverA.done" 7)
    (list_byte_of_string "status: ok") init_world
  = (Ret tt,
     World [ Print (nl ++ "[DT] Received result from solverA:");
             Print "Result: {'status': 'ok'}";
             Print "--------------------------------------------------";
             BasicAck 7 false ] [] 0).
Proof. vm_compute. reflexivity. Qed.

(** A body that does not parse is rejected, and the delivery after it is
    handled as usual. *)
Example demo_scenario_B :
  @start_consuming (@handle_result Demo.yaml Demo.dt)
    [ (Demo.deliver "solverA.done" 7, list_byte_of_string "status: {");
      (Demo.deliver "solverA.done" 8, list_byte_of_string "status: ok") ] init_world
  = (Ret tt,
     World [ Print "Error decoding YAML result: could not parse the document";
             BasicNack 7 false true;
             Print (nl ++ "[DT] Received result from solverA:");
             Print "Result: {'status': 'ok'}";
             Print "--------------------------------------------------";
             BasicAck 8 false ] [] 0).
Proof. vm_compute. reflexivity. Qed.

(** ** Effects accumulate *)

Lemma log_nil (w : world) : log w [] = w.
Proof. destruct w; unfold log; simpl; now rewrite app_nil_r. Qed.

Lemma log_log (w : world) (a b : list event) : log (log w a) b = log w (a ++ b)%list.
Proof. unfold log; simpl; now rewrite app_assoc. Qed.

Lemma skipn_length_app {A} (l r : list A) : skipn (length l) (l ++ r)%list = r.
Proof. induction l; simpl; auto. Qed.

Lemma emitted_log {A} (m : M A) (w : world) (r : result A) (evs : list event) :
  m w = (r, log w evs) -> emitted m w = evs.
Proof. unfold emitted; intros ->; simpl; apply skipn_length_app. Qed.

(** Running a straight-line method one statement at a time. *)
Lemma bind_ret {A B} (a : A) (k : A -> M B) (w : world) : bind (ret a) k w = k a w.
Proof. reflexivity. Qed.

Lemma bind_lift {A B} (r : A + exn) (k : A -> M B) (w : world) :
  bind (lift r) k w = match r with inl a => k a w | inr e => (Raise e, w) end.
Proof. destruct r; reflexivity. Qed.

Lemma bind_emit {B} (e : event) (k : unit -> M B) (w : world) :
  bind (emit e) k w = k tt (log w [e]).
Proof. reflexivity. Qed.

Lemma bind_request {broker : Broker} {B} (e : event) (x : exn) (k : unit -> M B) (w : world) :
  bind (request e x) k w
  = if accepts (trace w) e then k tt (log w [e]) else (Raise x, log w [e]).
Proof. unfold bind, request. now destruct (accepts (trace w) e). Qed.

Lemma bind_bind {A B C} (m : M A) (k : A -> M B) (k' : B -> M C) (w : world) :
  bind (bind m k) k' w = bind m (fun a => bind (k a) k') w.
Proof. unfold bind. destruct (m w) as [[a|e] w']; reflexivity. Qed.

Create HintDb run.
#[global] Hint Unfold print : run.

Ltac run_step :=
  lazymatch goal with
  | |- context [bind (lift ?r) ?k ?w] =>
      rewrite (bind_lift r k w); destruct r eqn:?
  | |- context [bind (request ?e ?x) ?k ?w] =>
      rewrite (bind_request e x k w); destruct (accepts (trace w) e) eqn:?
  | |- context [bind (emit ?e) ?k ?w] => rewrite (bind_emit e k w)
  | |- context [bind (ret ?a) ?k ?w] => rewrite (bind_ret a k w)
  | |- context [bind (bind ?m ?k) ?k' ?w] => rewrite (bind_bind m k k' w)
  | |- context [bind (if ?b then ?m1 else ?m2) ?k ?w] => destruct b eqn:?
  end.

Ltac run :=
  autounfold with run;
  repeat (run_step; cbv beta iota);
  unfold emit, ret, raise;
  rewrite ?log_log; cbn [app].

(** ** Topology declaration *)

Section Topology.
Context {yaml : YamlLib} {host : Host} {broker : Broker}.

#[local] Hint Unfold setup_infrastructure exchange_declare queue_declare queue_bind : run.

(** What [setup_infrastructure] does, whatever the configuration and the
    broker's answers: some first part of exchange, exchange, queue, binding. *)
Lemma setup_infrastructure_run (self : client) (w : world) :
  exists r evs, setup_infrastructure self w = (r, log w evs)
    /\ Forall (fun e => is_topology e = true) evs
    /\ StronglySorted le (map rank evs)
    /\ (forall self', r = Ret self' -> exists a b c d e f g h i,
          evs = [ ExchangeDeclare a b c; ExchangeDeclare d e f;
                  QueueDeclare g h; QueueBind d g i ]).
Proof.
  run.
  all: unfold ret, request; try destruct (accepts _ _).
  all: eexists; eexists; split;
       [ first [ reflexivity | rewrite <- (log_nil w) at 1; reflexivity ] | ].
  all: split; [ repeat constructor | ].
  all: split; [ cbn; repeat constructor | ].
  all: intros self' E; try discriminate E.
  all: repeat eexists.
Qed.

End Topology.

(** C7: every invocation of [setup_infrastructure] issues only topology
    operations, in the order exchange declarations, then queue declarations,
    then bindings, whether it completes or stops at a missing setting or a
    refusal of the broker; an invocation that completes has issued exactly
    two exchange declarations, one queue declaration and one binding of that
    queue to the second exchange. *)
Theorem setup_infrastructure_order {broker : Broker} (self : client) (w : world) :
  let evs := emitted (setup_infrastructure self) w in
  Forall (fun e => is_topology e = true) evs
  /\ StronglySorted le (map rank evs)
  /\ (forall self' w', setup_infrastructure self w = (Ret self', w') ->
        exists a b c d e f g h i,
          evs = [ ExchangeDeclare a b c; ExchangeDeclare d e f;
                  QueueDeclare g h; QueueBind d g i ]).
Proof.
  destruct (setup_infrastructure_run self w) as (r & evs & E & Htop & Hsort & Hfull).
  cbv zeta. rewrite (emitted_log _ _ _ _ E).
  repeat split; auto.
  intros self' w' E'. rewrite E in E'. apply (Hfull self'). congruence.
Qed.

Lemma setup_infrastructure_order_witness :
  exists a b c d e f g h i,
    @emitted client (@setup_infrastructure Demo.broker
                       (Client Demo.config_doc (PStr "dt") None)) init_world
    = [ ExchangeDeclare a b c; ExchangeDeclare d e f; QueueDeclare g h; QueueBind d g i ].
Proof.
  eapply (proj2 (proj2 (@setup_infrastructure_order Demo.broker
                          (Client Demo.config_doc (PStr "dt") None) init_world))).
  vm_compute. reflexivity.
Defined.

(** ** Handling one delivery *)

Lemma first_item_split (s : string) :
  first_item (str_split "."%char s) = inl (first_segment s).
Proof.
  induction s as [|c s IH]; cbn; auto.
  destruct (Ascii.eqb c "."%char); cbn; auto.
  destruct (str_split "."%char s); cbn in *; congruence.
Qed.

Lemma first_segment_prefix (a r : string) :
  contains "."%char a = false ->
  first_segment a = a /\ first_segment (a ++ "." ++ r) = a.
Proof.
  unfold contains. induction a as [|c a IH]; intros H.
  - split; reflexivity.
  - cbn [list_ascii_of_string existsb] in H.
    apply orb_false_iff in H as [Hc Ha]. rewrite Ascii.eqb_sym in Hc.
    destruct (IH Ha) as [E1 E2].
    cbn [first_segment append]. rewrite Hc, E1. split; [reflexivity|].
    f_equal. exact E2.
Qed.

Lemma present_run (self : client) (source : string) (result : pyval) (w : world) :
  present self source result w =
  match py_upper (dt_id self) with
  | inl tag =>
      if has_wide_int result
      then (Raise digits_limit_error,
            log w [Print (nl ++ "[" ++ tag ++ "] Received result from " ++ source ++ ":")])
      else (Ret tt, log w (shown tag source result))
  | inr e => (Raise e, w)
  end.
Proof.
  unfold present, py_format.
  destruct (py_upper (dt_id self)) as [tag|e]; [|reflexivity].
  destruct (has_wide_int result); run; reflexivity.
Qed.

Lemma py_upper_exception (v : pyval) (e : exn) :
  py_upper v = inr e -> exists msg, e = AttributeError msg.
Proof. destruct v; cbn; try discriminate; intros [= <-]; eauto. Qed.

Lemma outcomes_prints (lines : list string) (evs : list event) :
  outcomes (map Print lines ++ evs)%list = outcomes evs.
Proof. induction lines; cbn; auto. Qed.

Section Handler.
Context {yaml : YamlLib}.

(** [handle_result] after one run of the presentation: an acknowledgment
    when it returned, the diagnostic and a rejection when it raised. *)
Lemma handle_result_presents (self : client) (method : Deliver) (body : list Byte.byte)
    (v : pyval) (w : world) :
  safe_load body = Loaded v ->
  handle_result self method body w =
  match present self (first_segment (routing_key method)) v w with
  | (Ret _, w1) => (Ret tt, log w1 [BasicAck (delivery_tag method) false])
  | (Raise e, w1) =>
      (Ret tt, log w1 [ Print ("Error processing the result: " ++ exn_str e);
                        BasicNack (delivery_tag method) false true ])
  end.
Proof.
  intros L.
  unfold handle_result, try_except, bind at 1.
  rewrite first_item_split. cbn [lift ret].
  unfold bind at 1, yaml_safe_load. rewrite L. cbn [ret].
  unfold bind at 1. rewrite present_run.
  destruct (py_upper (dt_id self)) as [tag|e] eqn:U.
  - destruct (has_wide_int v); cbn.
    + unfold bind, print, emit, basic_nack, emit. rewrite log_log; reflexivity.
    + unfold basic_ack, emit. reflexivity.
  - destruct (py_upper_exception _ _ U) as [msg ->].
    cbn. unfold bind, print, emit, basic_nack, emit. rewrite log_log. reflexivity.
Qed.

(** The ways through [handle_result]. *)
Lemma handle_result_run (self : client) (method : Deliver) (body : list Byte.byte) (w : world) :
  handle_result self method body w =
  (Ret tt,
   log w
     match safe_load body with
     | Loaded v =>
         match py_upper (dt_id self) with
         | inl tag =>
             if has_wide_int v
             then [ Print (nl ++ "[" ++ tag ++ "] Received result from "
                           ++ first_segment (routing_key method) ++ ":");
                    Print ("Error processing the result: " ++ exn_str digits_limit_error);
                    BasicNack (delivery_tag method) false true ]
             else shown tag (first_segment (routing_key method)) v
                  ++ [BasicAck (delivery_tag method) false]
         | inr e => [ Print ("Error processing the result: " ++ exn_str e);
                      BasicNack (delivery_tag method) false true ]
         end
     | Malformed msg => [ Print ("Error decoding YAML result: " ++ msg);
                          BasicNack (delivery_tag method) false true ]
     | Crashed msg => [ Print ("Error processing the result: " ++ msg);
                        BasicNack (delivery_tag method) false true ]
     end%list).
Proof.
  destruct (safe_load body) as [v|msg|msg] eqn:L.
  - rewrite (handle_result_presents self method body v w L), present_run.
    destruct (py_upper (dt_id self)) as [tag|e]; [|reflexivity].
    destruct (has_wide_int v); rewrite log_log; reflexivity.
  - unfold handle_result, try_except, bind at 1.
    rewrite first_item_split. cbn [lift ret].
    unfold bind at 1, yaml_safe_load. rewrite L.
    cbn. unfold bind, print, emit, basic_nack, emit. rewrite log_log; reflexivity.
  - unfold handle_result, try_except, bind at 1.
    rewrite first_item_split. cbn [lift ret].
    unfold bind at 1, yaml_safe_load. rewrite L.
    cbn. unfold bind, print, emit, basic_nack, emit. rewrite log_log; reflexivity.
Qed.

(** [handle_result] returns normally, so the consume loop goes on to the
    next delivery. *)
Lemma start_consuming_next (self : client) (method : Deliver) (body : list Byte.byte)
    (rest : list (Deliver * list Byte.byte)) (w : world) :
  start_consuming (handle_result self) ((method, body) :: rest) w
  = start_consuming (handle_result self) rest (snd (handle_result self method body w)).
Proof.
  cbn [start_consuming]. unfold bind at 1. now rewrite handle_result_run.
Qed.

End Handler.

Lemma listening_dt_id {yaml : YamlLib} {broker : Broker} (self : client) :
  listening self -> exists s, dt_id self = PStr s.
Proof.
  intros (w & w' & E). unfold start_listening, basic_consume in E.
  revert E. run; try discriminate.
  unfold py_upper in *. destruct (dt_id self); try discriminate. eauto.
Qed.

(** C1, as the code has it: when the body does not deserialize, or when
    showing the decoded result raises, [handle_result] prints one diagnostic
    (after the first line of the presentation, when that line was already
    out) and records exactly one rejection of the delivery's tag and no
    acknowledgment; the rejection is sent with pika's defaults, that is for
    this delivery alone and with requeue set, so the broker may deliver the
    message again; [handle_result] returns normally and the consume loop goes
    on with the deliveries that follow. *)
Theorem handle_result_rejects {yaml : YamlLib}
    (self : client) (method : Deliver) (body : list Byte.byte) (w : world) :
  (forall v, safe_load body <> Loaded v)
  \/ (exists v e w', safe_load body = Loaded v
        /\ present self (first_segment (routing_key method)) v w = (Raise e, w')) ->
  exists shown_so_far line,
    let nack := BasicNack (delivery_tag method) false true in
    let evs := (map Print shown_so_far ++ [Print line; nack])%list in
    handle_result self method body w = (Ret tt, log w evs)
    /\ outcomes (emitted (handle_result self method body) w) = [nack]
    /\ (forall rest,
          start_consuming (handle_result self) ((method, body) :: rest) w
          = start_consuming (handle_result self) rest (log w evs))
    /\ length shown_so_far <= 1
    /\ ((forall v, safe_load body <> Loaded v) -> shown_so_far = []).
Proof.
  intros H.
  assert (exists shown_so_far line,
            handle_result self method body w
            = (Ret tt, log w (map Print shown_so_far
                              ++ [Print line; BasicNack (delivery_tag method) false true])%list)
            /\ length shown_so_far <= 1
            /\ ((forall v, safe_load body <> Loaded v) -> shown_so_far = []))
    as (pre & line & E & B & N).
  { rewrite handle_result_run. destruct H as [H | (v & e & w' & L & P)].
    - destruct (safe_load body) as [v|msg|msg].
      + now destruct (H v).
      + eexists [], _. cbn [map app length]. split; [reflexivity|]. split; [lia|auto].
      + eexists [], _. cbn [map app length]. split; [reflexivity|]. split; [lia|auto].
    - rewrite L. rewrite present_run in P.
      destruct (py_upper (dt_id self)) as [tag|e0].
      + destruct (has_wide_int v); [|discriminate P].
        eexists [_], _. cbn [map app length]. split; [reflexivity|]. split; [lia|].
        intros F. now destruct (F v).
      + eexists [], _. cbn [map app length]. split; [reflexivity|]. split; [lia|]. auto. }
  exists pre, line. cbv zeta. split; [exact E|]. split; [|split; [|split]].
  - rewrite (emitted_log _ _ _ _ E). now rewrite outcomes_prints.
  - intros rest. now rewrite start_consuming_next, E.
  - exact B.
  - exact N.
Qed.

Lemma handle_result_rejects_witness :
  (exists line,
     @handle_result Demo.yaml Demo.dt (Demo.deliver "solverA.done" 7)
       (list_byte_of_string "status: {") init_world
     = (Ret tt, log init_world [Print line; BasicNack 7 false true]))
  /\ (exists shown_so_far line,
        @handle_result Demo.yaml (Client Demo.config_doc (PInt 42) (Some "Q.42.result"))
          (Demo.deliver "solverA.done" 8) (list_byte_of_string "status: ok") init_world
        = (Ret tt, log init_world (map Print shown_so_far
                                   ++ [Print line; BasicNack 8 false true])%list))
  /\ (exists shown_so_far line,
        @handle_result Demo.yaml Demo.dt (Demo.deliver "solverA.done" 9)
          (list_byte_of_string Demo.wide_text) init_world
        = (Ret tt, log init_world (map Print shown_so_far
                                   ++ [Print line; BasicNack 9 false true])%list)).
Proof.
  split; [|split].
  - destruct (@handle_result_rejects Demo.yaml Demo.dt (Demo.deliver "solverA.done" 7)
                (list_byte_of_string "status: {") init_world)
      as (pre & line & E & _ & _ & _ & N).
    + left. intros v. vm_compute. discriminate.
    + exists line. rewrite E, N; [reflexivity|].
      intros v. vm_compute. discriminate.
  - destruct (@handle_result_rejects Demo.yaml
                (Client Demo.config_doc (PInt 42) (Some "Q.42.result"))
                (Demo.deliver "solverA.done" 8) (list_byte_of_string "status: ok")
                init_world) as (pre & line & E & _).
    + right. eexists _, _, _. split; vm_compute; reflexivity.
    + exists pre, line. exact E.
  - destruct (@handle_result_rejects Demo.yaml Demo.dt (Demo.deliver "solverA.done" 9)
                (list_byte_of_string Demo.wide_text) init_world) as (pre & line & E & _).
    + right. eexists _, _, _. split; vm_compute; reflexivity.
    + exists pre, line. exact E.
Defined.

(** C1, as stated, fails: a delivery whose body does not parse is rejected
    with requeue set, not without requeue. *)
Lemma handle_result_requeues :
  (forall v, @safe_load Demo.yaml (list_byte_of_string "status: {") <> Loaded v)
  /\ ~ rejected_without_requeue 7
         (emitted (@handle_result Demo.yaml Demo.dt (Demo.deliver "solverA.done" 7)
                     (list_byte_of_string "status: {")) init_world).
Proof.
  split.
  - intros v. vm_compute. discriminate.
  - intros [multiple H]. vm_compute in H. discriminate H.
Qed.

(** The success path, shared by the statements below. *)
Lemma handle_result_loaded {yaml : YamlLib} {broker : Broker}
    (self : client) (method : Deliver) (body : list Byte.byte) (v : pyval) (w : world) :
  listening self ->
  safe_load body = Loaded v ->
  exists id,
    dt_id self = PStr id
    /\ handle_result self method body w
       = (Ret tt,
          log w (Print (nl ++ "[" ++ str_upper id ++ "] Received result from "
                        ++ first_segment (routing_key method) ++ ":")
                 :: if has_wide_int v
                    then [ Print ("Error processing the result: "
                                  ++ exn_str digits_limit_error);
                           BasicNack (delivery_tag method) false true ]
                    else [ Print ("Result: " ++ py_str v);
                           Print (str_times "-" 50);
                           BasicAck (delivery_tag method) false ])).
Proof.
  intros L E. destruct (listening_dt_id self L) as [s Hs].
  exists s. split; [exact Hs|].
  rewrite handle_result_run, E, Hs. cbn [py_upper].
  now destruct (has_wide_int v).
Qed.


Lemma demo_listening : @listening Demo.yaml Demo.broker Demo.dt.
Proof. eexists init_world, _. vm_compute. reflexivity. Defined.



(** C8: the origin shown for a delivery is the first dot-delimited segment of
    its routing key, and what follows the first dot has no effect at all:
    two deliveries that differ only there are handled identically.  For a
    listening client the first line printed names the origin, and the lines
    of a value that has a text follow it, with the acknowledgment. *)
Theorem origin_is_first_segment {yaml : YamlLib} {broker : Broker}
    (self : client) (origin rest rest' : string) (tag : Z)
    (body : list Byte.byte) (w : world) :
  contains "."%char origin = false ->
  let with_rest := {| routing_key := origin ++ "." ++ rest; delivery_tag := tag |} in
  let with_rest' := {| routing_key := origin ++ "." ++ rest'; delivery_tag := tag |} in
  let alone := {| routing_key := origin; delivery_tag := tag |} in
  handle_result self with_rest body w = handle_result self with_rest' body w
  /\ handle_result self with_rest body w = handle_result self alone body w
  /\ (forall v, listening self -> safe_load body = Loaded v ->
        exists id tail,
          dt_id self = PStr id
          /\ emitted (handle_result self with_rest body) w
             = Print (nl ++ "[" ++ str_upper id ++ "] Received result from " ++ origin ++ ":")
               :: tail
          /\ (has_wide_int v = false ->
              tail = [ Print ("Result: " ++ py_str v);
                       Print (str_times "-" 50);
                       BasicAck tag false ])).
Proof.
  intros H. cbv zeta.
  destruct (first_segment_prefix origin rest H) as [E0 E1].
  destruct (first_segment_prefix origin rest' H) as [_ E2].
  rewrite !handle_result_run. cbn [routing_key delivery_tag].
  rewrite E0, E1, E2. repeat split.
  intros v L E.
  destruct (handle_result_loaded self
              {| routing_key := origin ++ "." ++ rest; delivery_tag := tag |} body v w L E)
    as (id & Hid & R).
  cbn [routing_key delivery_tag] in R. rewrite E1 in R.
  exists id. eexists. split; [exact Hid|]. split.
  - rewrite <- (emitted_log _ _ _ _ R).
    unfold emitted. now rewrite handle_result_run.
  - intros W. now rewrite W.
Qed.

Lemma origin_is_first_segment_witness :
  @handle_result Demo.yaml Demo.dt (Demo.deliver "solverA.done" 7)
    (list_byte_of_string "status: ok") init_world
  = @handle_result Demo.yaml Demo.dt (Demo.deliver "solverA.failed.at.step.3" 7)
      (list_byte_of_string "status: ok") init_world
  /\ exists id,
       dt_id Demo.dt = PStr id
       /\ emitted (@handle_result Demo.yaml Demo.dt (Demo.deliver "solverA.done" 7)
                     (list_byte_of_string "status: ok")) init_world
          = [ Print (nl ++ "[" ++ str_upper id ++ "] Received result from solverA:");
              Print "Result: {'status': 'ok'}";
              Print (str_times "-" 50);
              BasicAck 7 false ].
Proof.
  destruct (@origin_is_first_segment Demo.yaml Demo.broker Demo.dt "solverA" "done"
              "failed.at.step.3" 7 (list_byte_of_string "status: ok") init_world eq_refl)
    as (E & _ & S).
  split; [exact E|].
  destruct (S (PDict [("status", PStr "ok")]) demo_listening eq_refl)
    as (id & tail & Hid & T & F).
  exists id. split; [exact Hid|].
  rewrite (F eq_refl) in T. exact T.
Defined.

(** C9: for a listening client, a delivery whose body is empty or
    deserializes to the YAML null value is handled as a success: PyYAML
    loads the empty stream as [None], the handler shows [None] with the
    origin and records an acknowledgment, not a rejection. *)
Theorem handle_result_none {yaml : YamlLib} {broker : Broker}
    (self : client) (method : Deliver) (body : list Byte.byte) (w : world) :
  safe_load [] = Loaded PNone ->
  listening self ->
  body = [] \/ safe_load body = Loaded PNone ->
  exists id,
    dt_id self = PStr id
    /\ handle_result self method body w
       = (Ret tt,
          log w [ Print (nl ++ "[" ++ str_upper id ++ "] Received result from "
                            ++ first_segment (routing_key method) ++ ":");
                  Print "Result: None";
                  Print (str_times "-" 50);
                  BasicAck (delivery_tag method) false ]).
Proof.
  intros Hempty L Hbody.
  assert (safe_load body = Loaded PNone) as E by (destruct Hbody; subst; auto).
  destruct (handle_result_loaded self method body PNone w L E) as (id & Hid & R).
  exists id. split; [exact Hid | exact R].
Qed.

Lemma handle_result_none_witness :
  exists id,
    dt_id Demo.dt = PStr id
    /\ @handle_result Demo.yaml Demo.dt (Demo.deliver "solverA.done" 7) [] init_world
       = (Ret tt,
          log init_world
            [ Print (nl ++ "[" ++ str_upper id ++ "] Received result from solverA:");
              Print "Result: None";
              Print (str_times "-" 50);
              BasicAck 7 false ]).
Proof.
  apply (@handle_result_none Demo.yaml Demo.broker Demo.dt
           (Demo.deliver "solverA.done" 7) [] init_world eq_refl demo_listening).
  left. reflexivity.
Defined.

(** ** Construction and listening *)

(** The f-string of the queue name gives the name, when it gives one. *)
Lemma queue_name_fstring_text (p i : pyval) (s : string) :
  queue_name_fstring p i = inl s -> s = queue_name p i.
Proof.
  unfold queue_name_fstring, py_format, queue_name.
  destruct (has_wide_int p); [discriminate|].
  destruct (has_wide_int i); [discriminate|]. now intros [= <-].
Qed.

Ltac queue_named :=
  repeat match goal with
         | H : queue_name_fstring _ _ = inl _ |- _ =>
             apply queue_name_fstring_text in H; subst
         end.

Lemma queue_name_fstring_exception (p i : pyval) (e : exn) :
  queue_name_fstring p i = inr e -> is_Exception e = true.
Proof.
  unfold queue_name_fstring, py_format.
  destruct (has_wide_int p); [now intros [= <-]|].
  destruct (has_wide_int i); [now intros [= <-]|discriminate].
Qed.

Section Lifecycle.
Context {yaml : YamlLib} {host : Host} {broker : Broker}.

#[local] Hint Unfold setup_infrastructure exchange_declare queue_declare queue_bind
  RabbitMQClient_init connect open_channel : run.

Ltac in_cases H :=
  repeat (destruct H as [H | H]; [subst | ]); try contradiction.

(** The queue that [setup_infrastructure] declares and binds, and the client
    it leaves. *)
Lemma setup_infrastructure_queue (self : client) (w : world) :
  exists r evs, setup_infrastructure self w = (r, log w evs)
    /\ (forall e q, In e evs -> queue_of e = Some q ->
          exists qc p, subscript (config self) "queue" = inl qc
            /\ subscript qc "result_queue_prefix" = inl p
            /\ q = Some (queue_name p (dt_id self)))
    /\ (forall self', r = Ret self' ->
          exists qc p a b c d e f h i,
            subscript (config self) "queue" = inl qc
            /\ subscript qc "result_queue_prefix" = inl p
            /\ evs = [ ExchangeDeclare a b c; ExchangeDeclare d e f;
                       QueueDeclare (queue_name p (dt_id self)) h;
                       QueueBind d (queue_name p (dt_id self)) i ]
            /\ self' = Client (config self) (dt_id self)
                         (Some (queue_name p (dt_id self)))).
Proof.
  run.
  all: queue_named.
  all: unfold ret, request; try destruct (accepts _ _).
  all: eexists; eexists; split;
       [ first [ reflexivity | rewrite <- (log_nil w) at 1; reflexivity ] | ].
  all: split;
       [ intros ev q Hin Hq; cbn [In] in Hin; in_cases Hin;
         cbn in Hq; try discriminate Hq; inversion Hq; subst; eauto | ].
  all: intros self' E; try discriminate E.
  all: inversion E; subst; repeat eexists; eauto.
Qed.

(** The constructor: connect, open a channel, declare the topology. *)
Lemma RabbitMQClient_init_run (cfg : pyval) (w : world) :
  exists r evs, RabbitMQClient_init cfg w = (r, log w evs)
    /\ Forall (fun e => is_publish e = false /\ is_print e = false) evs
    /\ (forall e q, In e evs -> queue_of e = Some q ->
          exists dtw id qc p,
            subscript cfg "digital_twin" = inl dtw /\ subscript dtw "dt_id" = inl id
            /\ subscript cfg "queue" = inl qc
            /\ subscript qc "result_queue_prefix" = inl p
            /\ q = Some (queue_name p id))
    /\ (forall self, r = Ret self ->
          exists dtw id qc p c a b d h i,
            subscript cfg "digital_twin" = inl dtw /\ subscript dtw "dt_id" = inl id
            /\ subscript cfg "queue" = inl qc
            /\ subscript qc "result_queue_prefix" = inl p
            /\ is_connect c = true
            /\ evs = [ c; OpenChannel; a; b;
                       QueueDeclare (queue_name p id) d;
                       QueueBind h (queue_name p id) i ]
            /\ self = Client cfg id (Some (queue_name p id))).
Proof.
  run.
  all: queue_named.
  all: unfold ret, request; try destruct (accepts _ _).
  all: eexists; eexists; split;
       [ first [ reflexivity | rewrite <- (log_nil w) at 1; reflexivity ] | ].
  all: split; [ repeat constructor | ].
  all: split;
       [ intros ev q Hin Hq; cbn [In] in Hin; in_cases Hin;
         cbn in Hq; try discriminate Hq; inversion Hq; subst;
         cbn [config dt_id] in *; eauto 12 | ].
  all: intros self' E; try discriminate E.
  all: inversion E; subst; cbn [config dt_id] in *; repeat eexists; eauto.
Qed.

(** The consume loop only prints, acknowledges and rejects, and it ends
    normally once the deliveries are exhausted. *)
Lemma start_consuming_run (self : client) (incoming : list (Deliver * list Byte.byte))
    (w : world) :
  exists evs, start_consuming (handle_result self) incoming w = (Ret tt, log w evs)
    /\ Forall (fun e => is_print e = true \/ is_outcome e = true) evs.
Proof.
  revert w. induction incoming as [|[method body] rest IH]; intros w.
  - exists []. now rewrite log_nil.
  - rewrite start_consuming_next, handle_result_run. cbn [snd].
    match goal with |- context [log w ?l] => set (evs := l) end.
    destruct (IH (log w evs)) as (evs' & E & F).
    exists (evs ++ evs')%list. rewrite E, log_log. split; [reflexivity|].
    apply Forall_app. split; [|exact F].
    subst evs. unfold shown.
    destruct (safe_load body) as [v| |];
      [destruct (py_upper (dt_id self)); [destruct (has_wide_int v)|]| |]; cbn [app];
      repeat first [ apply Forall_nil | apply Forall_cons; [cbn; auto|] ].
Qed.

Lemma start_listening_run (self : client) (incoming : list (Deliver * list Byte.byte))
    (w : world) :
  exists r evs, start_listening self incoming w = (r, log w evs)
    /\ (forall e q, In e evs -> queue_of e = Some q -> q = result_queue_name self)
    /\ Forall (fun e => is_publish e = false) evs.
Proof.
  unfold start_listening, basic_consume. run.
  - destruct (start_consuming_run self incoming
                (log w [BasicConsume (result_queue_name self);
                        Print (" [" ++ s ++ "] Listening for simulation results...");
                        StartConsuming])) as (evs & E & F).
    rewrite E, log_log. eexists _, _. split; [reflexivity|].
    rewrite Forall_forall in F. split.
    + intros e q [<-|[<-|[<-|Hin]]] Hq; cbn in Hq; try congruence.
      destruct (F e Hin) as [P|P]; destruct e; cbn in *; congruence.
    + repeat constructor. apply Forall_forall. intros e Hin.
      destruct (F e Hin) as [P|P]; destruct e; cbn in *; congruence.
  - eexists _, _. split; [reflexivity|]. split; [|repeat constructor].
    intros ev q [<-|[]] Hq. cbn in Hq. congruence.
  - eexists _, _. split; [reflexivity|]. split; [|repeat constructor].
    intros ev q [<-|[]] Hq. cbn in Hq. congruence.
Qed.

(** The listener thread as a whole. *)
Lemma start_dt_listener_run (cfg : pyval) (incoming : list (Deliver * list Byte.byte))
    (w : world) :
  exists r evs, start_dt_listener cfg incoming w = (r, log w evs)
    /\ Forall (fun e => is_publish e = false) evs
    /\ (forall e q, In e evs -> queue_of e = Some q ->
          exists dtw id qc p,
            subscript cfg "digital_twin" = inl dtw /\ subscript dtw "dt_id" = inl id
            /\ subscript cfg "queue" = inl qc
            /\ subscript qc "result_queue_prefix" = inl p
            /\ q = Some (queue_name p id)).
Proof.
  unfold start_dt_listener, bind.
  destruct (RabbitMQClient_init_run cfg w) as (r & evs & E & F & Hq & Hret).
  rewrite E. destruct r as [self|e].
  - destruct (start_listening_run self incoming (log w evs)) as (r' & evs' & E' & Hq' & F').
    rewrite E', log_log. exists r', (evs ++ evs')%list. split; [reflexivity|].
    split.
    + apply Forall_app. split; [|exact F'].
      eapply Forall_impl; [|exact F]. now intros a [? _].
    + intros ev q Hin Hqe. apply in_app_or in Hin as [Hin|Hin]; [eauto|].
      rewrite (Hq' ev q Hin Hqe).
      destruct (Hret self eq_refl)
        as (dtw & id & qc & p & c & a & b & d & h & i & E1 & E2 & E3 & E4 & _ & _ & ->).
      cbn [result_queue_name]. eauto 10.
  - exists (Raise e), evs. split; [reflexivity|]. split; [|exact Hq].
    eapply Forall_impl; [|exact F]. now intros a [? _].
Qed.

End Lifecycle.

(** C3: every queue the client declares, binds or consumes from is named
    [{result_queue_prefix}.{identity}.result], the text of the configured
    prefix and of the configured identity joined by a dot and followed by
    [.result]; nothing else (the broker, the deliveries, the earlier history)
    enters the name. *)
Theorem result_queue_name_derived {yaml : YamlLib} {broker : Broker}
    (cfg : pyval) (incoming : list (Deliver * list Byte.byte)) (w : world)
    (e : event) (q : option string) :
  In e (emitted (start_dt_listener cfg incoming) w) ->
  queue_of e = Some q ->
  exists digital_twin identity queue_cfg result_queue_prefix,
    subscript cfg "digital_twin" = inl digital_twin
    /\ subscript digital_twin "dt_id" = inl identity
    /\ subscript cfg "queue" = inl queue_cfg
    /\ subscript queue_cfg "result_queue_prefix" = inl result_queue_prefix
    /\ q = Some (py_str result_queue_prefix ++ "." ++ py_str identity ++ ".result").
Proof.
  destruct (start_dt_listener_run cfg incoming w) as (r & evs & E & _ & Hq).
  rewrite (emitted_log _ _ _ _ E). apply Hq.
Qed.

Lemma result_queue_name_derived_witness :
  exists digital_twin identity queue_cfg result_queue_prefix,
    subscript Demo.config_doc "digital_twin" = inl digital_twin
    /\ subscript digital_twin "dt_id" = inl identity
    /\ subscript Demo.config_doc "queue" = inl queue_cfg
    /\ subscript queue_cfg "result_queue_prefix" = inl result_queue_prefix
    /\ Some "Q.dt.result"
       = Some (py_str result_queue_prefix ++ "." ++ py_str identity ++ ".result").
Proof.
  apply (@result_queue_name_derived Demo.yaml Demo.broker Demo.config_doc
           [(Demo.deliver "solverA.done" 7, list_byte_of_string "status: ok")]
           init_world (BasicConsume (Some "Q.dt.result")) (Some "Q.dt.result")).
  - vm_compute. tauto.
  - reflexivity.
Defined.

(** ** Message identifiers *)

Lemma uuid4_int_bits (r : Z) : uuid4_int r = Z.lor (Z.land r kept_bits) fixed_bits.
Proof.
  unfold uuid4_int. cbv zeta.
  rewrite <- (Z.land_ones r 128) by lia.
  rewrite Z.land_lor_distr_l, <- !Z.land_assoc, <- Z.lor_assoc.
  f_equal.
Qed.

Lemma uuid4_int_mod (r : Z) : (uuid4_int r mod 2 ^ 128 = uuid4_int r)%Z.
Proof.
  rewrite <- Z.land_ones by lia. rewrite uuid4_int_bits.
  rewrite Z.land_lor_distr_l, <- Z.land_assoc. reflexivity.
Qed.

Lemma uuid4_int_kept (r1 r2 : Z) :
  uuid4_int r1 = uuid4_int r2 <-> Z.land r1 kept_bits = Z.land r2 kept_bits.
Proof.
  rewrite !uuid4_int_bits. split; intros H; [|now rewrite H].
  apply (f_equal (fun x => Z.land x kept_bits)) in H.
  rewrite !Z.land_lor_distr_l, <- !Z.land_assoc in H.
  change (Z.land kept_bits kept_bits) with kept_bits in H.
  change (Z.land fixed_bits kept_bits) with 0%Z in H.
  now rewrite !Z.lor_0_r in H.
Qed.

Lemma hex_fixed_digits (n : nat) (z : Z) :
  hex_fixed n z = string_of_list_ascii (map (digit z) (rev (seq 0 n))).
Proof.
  revert z. induction n as [|n IH]; intros z; [reflexivity|].
  cbn [hex_fixed]. rewrite IH.
  change (seq 0 (S n)) with (0%nat :: seq 1 n). rewrite <- seq_shift.
  cbn [rev]. rewrite map_app, <- map_rev, map_map. cbn [map].
  assert (forall l1 l2, string_of_list_ascii (l1 ++ l2)
                        = string_of_list_ascii l1 ++ string_of_list_ascii l2) as Happ.
  { induction l1; intros; cbn; [reflexivity|]. now rewrite IHl1. }
  rewrite Happ. f_equal. f_equal.
  apply map_ext. intros k. unfold digit.
  rewrite Z.shiftr_shiftr by lia. do 4 f_equal. lia.
Qed.

Lemma nibble_bound x : (0 <= Z.land x 15 < 16)%Z.
Proof.
  split. apply Z.land_nonneg; lia.
  change 15%Z with (Z.ones 4). rewrite Z.land_ones by lia. apply Z.mod_pos_bound. lia.
Qed.

Lemma hex_char_is_hex n : (n < 16)%nat -> is_hex (hex_char n) = true.
Proof.
  intros H. do 16 (destruct n as [|n]; [reflexivity|]). lia.
Qed.

Lemma digit_is_hex z k : is_hex (digit z k) = true.
Proof. apply hex_char_is_hex. pose proof (nibble_bound (Z.shiftr z (4 * Z.of_nat k))). lia. Qed.

Lemma version_digit r : digit (uuid4_int r) 19 = "4"%char.
Proof.
  unfold digit. rewrite uuid4_int_bits.
  rewrite Z.shiftr_lor, Z.shiftr_land, Z.land_lor_distr_l, <- Z.land_assoc.
  change (Z.land (Z.shiftr kept_bits (4 * Z.of_nat 19)) 15) with 0%Z.
  rewrite Z.land_0_r. reflexivity.
Qed.

Lemma variant_digit r :
  existsb (Ascii.eqb (digit (uuid4_int r) 15)) (list_ascii_of_string "89ab") = true.
Proof.
  unfold digit. rewrite uuid4_int_bits.
  rewrite Z.shiftr_lor, Z.shiftr_land, Z.land_lor_distr_l, <- Z.land_assoc.
  change (Z.land (Z.shiftr kept_bits (4 * Z.of_nat 15)) 15) with 3%Z.
  change (Z.land (Z.shiftr fixed_bits (4 * Z.of_nat 15)) 15) with 8%Z.
  set (x := Z.shiftr r (4 * Z.of_nat 15)).
  assert (0 <= Z.land x 3 < 4)%Z as B.
  { split. apply Z.land_nonneg; lia.
    change 3%Z with (Z.ones 2). rewrite Z.land_ones by lia. apply Z.mod_pos_bound. lia. }
  assert (Z.land x 3 = 0 \/ Z.land x 3 = 1 \/ Z.land x 3 = 2 \/ Z.land x 3 = 3)%Z
    as [E|[E|[E|E]]] by lia; rewrite E; reflexivity.
Qed.

Lemma uuid4_formatted r : uuid_formatted (uuid_str (uuid4_int r)) = true.
Proof.
  unfold uuid_formatted, uuid_str. rewrite hex_fixed_digits.
  cbn [seq rev app map string_of_list_ascii append substring String.length
       list_ascii_of_string].
  cbn [Nat.eqb andb uuid_chars existsb orb].
  rewrite version_digit, variant_digit, !digit_is_hex. reflexivity.
Qed.

Lemma append_last_inj (s1 s2 : string) (c1 c2 : ascii) :
  s1 ++ String c1 EmptyString = s2 ++ String c2 EmptyString -> s1 = s2 /\ c1 = c2.
Proof.
  revert s2. induction s1 as [|a s1 IH]; intros [|b s2] H; cbn in H.
  - now inversion H.
  - inversion H as [[E1 E2]]. destruct s2; discriminate.
  - inversion H as [[E1 E2]]. destruct s1; discriminate.
  - inversion H as [[E1 E2]]. destruct (IH _ E2). subst. auto.
Qed.

Lemma hex_val_char n : (n < 16)%nat -> hex_val (hex_char n) = n.
Proof. intros H. do 16 (destruct n as [|n]; [reflexivity|]). lia. Qed.

Lemma hex_fixed_inj (n : nat) (a b : Z) :
  hex_fixed n a = hex_fixed n b ->
  (a mod 2 ^ (4 * Z.of_nat n) = b mod 2 ^ (4 * Z.of_nat n))%Z.
Proof.
  revert a b. induction n as [|n IH]; intros a b H.
  - cbn. now rewrite !Z.mod_1_r.
  - cbn [hex_fixed] in H. apply append_last_inj in H as [H1 H2].
    apply IH in H1.
    assert (Z.land a 15 = Z.land b 15) as H3.
    { pose proof (nibble_bound a). pose proof (nibble_bound b).
      apply (f_equal hex_val) in H2. rewrite !hex_val_char in H2 by lia. lia. }
    change 15%Z with (Z.ones 4) in H3. rewrite !Z.land_ones in H3 by lia.
    rewrite !Z.shiftr_div_pow2 in H1 by lia.
    replace (4 * Z.of_nat (S n))%Z with (4 + 4 * Z.of_nat n)%Z by lia.
    rewrite Z.pow_add_r by lia.
    rewrite !Z.rem_mul_r by lia. now rewrite H1, H3.
Qed.

Lemma uuid_str_inj (a b : Z) :
  uuid_str a = uuid_str b -> (a mod 2 ^ 128 = b mod 2 ^ 128)%Z.
Proof.
  intros H. apply (hex_fixed_inj 32).
  unfold uuid_str in H. rewrite !hex_fixed_digits in *.
  cbn [seq rev app map string_of_list_ascii append substring] in *.
  inversion H. reflexivity.
Qed.

(** Two identifiers are the same text exactly when the two random reads
    agree on the bits that [uuid4] keeps. *)
Lemma message_id_eq (r1 r2 : Z) :
  uuid_str (uuid4_int r1) = uuid_str (uuid4_int r2)
  <-> Z.land r1 kept_bits = Z.land r2 kept_bits.
Proof.
  rewrite <- uuid4_int_kept. split; intros H; [|now rewrite H].
  apply uuid_str_inj in H. now rewrite !uuid4_int_mod in H.
Qed.

(** ** Sending a request *)

Lemma subscript_exception (v : pyval) (k : string) (e : exn) :
  subscript v k = inr e -> is_Exception e = true.
Proof.
  destruct v; cbn; try (intros [= <-]; reflexivity).
  destruct (assoc k items); [discriminate|]. now intros [= <-].
Qed.

Lemma dict_get_exception (v : pyval) (k : string) (d : pyval) (e : exn) :
  dict_get v k d = inr e -> is_Exception e = true.
Proof.
  destruct v; cbn; try (intros [= <-]; reflexivity).
  destruct (assoc k items); discriminate.
Qed.

Lemma amqp_short_string_exception (field : string) (v : pyval) (e : exn) :
  amqp_short_string field v = inr e -> is_Exception e = true.
Proof.
  destruct v; cbn; try (now intros [= <-]).
  destruct (Nat.leb _ _); [discriminate|now intros [= <-]].
Qed.

Ltac raised :=
  first [ reflexivity
        | eapply subscript_exception; eassumption
        | eapply dict_get_exception; eassumption
        | eapply amqp_short_string_exception; eassumption ].

Section Send.
Context {yaml : YamlLib} {host : Host}.

(** What one call of [send_simulation_request] does: either it raises before
    publishing and leaves the trace as it was, or it publishes one message.
    In both cases the store only gains the copy that the dict display
    makes. *)
Lemma send_simulation_request_run (self : client) (payload_data : hval) (w : world) :
  exists r w', send_simulation_request self payload_data w = (r, w')
    /\ (store w' = store w
        \/ exists a items, payload_data = HRef a
             /\ nth_error (store w) a = Some (ODict items)
             /\ store w' = (store w ++ [ODict items])%list)
    /\ ((trace w' = trace w /\ draws w' <= S (draws w)
         /\ exists e, r = Raise e /\ is_Exception e = true)
        \/ (r = Ret tt /\ draws w' = S (draws w)
            /\ store w' <> store w
            /\ exists exchange rk,
                 trace w' = (trace w ++
                   [BasicPublish exchange rk
                      (dump (store w') (HRef (length (store w))))
                      2 "application/x-yaml"
                      (uuid_str (uuid4_int (urandom16 (draws w))))])%list)).
Proof.
  unfold send_simulation_request. unfold bind at 1, dict_display.
  destruct payload_data as [| | | |a];
    try (eexists _, _; split; [reflexivity|]; split; [now left|]; left;
         split; [reflexivity|]; split; [lia|]; eexists; split; [reflexivity|raised]).
  destruct (nth_error (store w) a) as [[items|items]|] eqn:Ea;
    try (eexists _, _; split; [reflexivity|]; split; [now left|]; left;
         split; [reflexivity|]; split; [lia|]; eexists; split; [reflexivity|raised]).
  cbn [alloc]. unfold bind at 1, yaml_dump. cbn [store].
  set (w1 := World (trace w) (store w ++ [ODict items])%list (draws w)).
  assert (store w1 = (store w ++ [ODict items])%list) as Hs by reflexivity.
  destruct (reaches_wide_int _ _ _);
    [eexists _, _; split; [reflexivity|]; split; [right; eauto|]; left;
     split; [reflexivity|]; split; [cbn; lia|]; eexists; split; [reflexivity|raised]|].
  run.
  2-6: eexists _, _; split; [reflexivity|]; split; [right; eauto|]; left;
       split; [reflexivity|]; split; [cbn; lia|]; eexists; split; [reflexivity|raised].
  unfold bind at 1, uuid4. unfold basic_publish.
  set (w2 := World (trace w1) (store w1) (S (draws w1))).
  run.
  2-3: eexists _, _; split; [reflexivity|]; split; [right; eauto|]; left;
       split; [reflexivity|]; split; [cbn; lia|]; eexists; split; [reflexivity|raised].
  unfold log. cbn [trace store draws].
  eexists _, _. split; [reflexivity|]. cbn [trace store draws].
  split; [right; eauto|]. right. repeat split; eauto.
  intros E. subst w2 w1. cbn [store] in E.
  apply (f_equal (@length _)) in E. rewrite length_app in E. cbn in E. lia.
Qed.

End Send.

(** C5, as the code has it: a call of [send_simulation_request] publishes at
    most one message, and when it publishes, the message has delivery mode 2
    (persistent), content type [application/x-yaml], the YAML dump of the
    copied payload as its body, and as identifier the text of a version-4
    UUID made from one fresh 16-byte read of the random source, so in UUID
    format; the identifiers of two sends are equal exactly when the two reads
    agree on the 122 bits that [uuid4] keeps. *)
Theorem send_simulation_request_message {yaml : YamlLib} {host : Host}
    (self : client) (payload_data : hval) (w : world) (e : event) :
  In e (emitted (send_simulation_request self payload_data) w) ->
  let w' := snd (send_simulation_request self payload_data w) in
  let id := uuid_str (uuid4_int (urandom16 (draws w))) in
  (exists exchange rk,
     e = BasicPublish exchange rk (dump (store w') (HRef (length (store w))))
           2 "application/x-yaml" id)
  /\ emitted (send_simulation_request self payload_data) w = [e]
  /\ uuid_formatted id = true
  /\ draws w' = S (draws w)
  /\ forall self2 payload_data2 w2 e2,
       In e2 (emitted (send_simulation_request self2 payload_data2) w2) ->
       (message_id_of e = message_id_of e2
        <-> Z.land (urandom16 (draws w)) kept_bits
            = Z.land (urandom16 (draws w2)) kept_bits).
Proof.
  assert (forall s p w0 e0,
            In e0 (emitted (send_simulation_request s p) w0) ->
            emitted (send_simulation_request s p) w0 = [e0]
            /\ draws (snd (send_simulation_request s p w0)) = S (draws w0)
            /\ exists exchange rk,
                 e0 = BasicPublish exchange rk
                        (dump (store (snd (send_simulation_request s p w0)))
                           (HRef (length (store w0))))
                        2 "application/x-yaml"
                        (uuid_str (uuid4_int (urandom16 (draws w0))))) as Hone.
  { intros s p w0 e0. unfold emitted.
    destruct (send_simulation_request_run s p w0)
      as (r & w1 & E & _ & [(T & _ & _) | (_ & D & _ & ex & rk & T)]);
      rewrite E; cbn [snd]; rewrite T.
    - rewrite <- (app_nil_r (trace w0)) at 2. rewrite skipn_length_app. intros [].
    - rewrite skipn_length_app. intros [<-|[]]. eauto. }
  intros Hin. cbv zeta.
  destruct (Hone _ _ _ _ Hin) as (E1 & D & ex & rk & ->).
  split; [eauto|]. split; [exact E1|]. split; [apply uuid4_formatted|].
  split; [exact D|].
  intros self2 p2 w2 e2 Hin2.
  destruct (Hone _ _ _ _ Hin2) as (_ & _ & ex2 & rk2 & ->).
  cbn [message_id_of]. rewrite <- message_id_eq. split; congruence.
Qed.

Lemma send_simulation_request_message_witness :
  @emitted unit (@send_simulation_request Demo.yaml Demo.host Demo.dt (HRef 0))
    (World [] [ODict [("task", HStr "run")]] 0)
  = [ BasicPublish (PStr "ex.input") (PStr "dt.sim") ("task: run" ++ nl) 2
        "application/x-yaml" "00000000-0000-4000-8000-000000003039" ].
Proof.
  apply (@send_simulation_request_message Demo.yaml Demo.host Demo.dt (HRef 0)
           (World [] [ODict [("task", HStr "run")]] 0)).
  vm_compute. left. reflexivity.
Defined.

(** C5, as stated, fails: when the random source returns the same bytes
    twice, two sends of one run carry the same identifier. *)
Lemma send_simulation_request_same_id :
  let host := Demo.host_with true true (fun _ => 7%Z) in
  let w0 := World [] [ODict [("task", HStr "run")]] 0 in
  let w1 := snd (@send_simulation_request Demo.yaml host Demo.dt (HRef 0) w0) in
  let w2 := snd (@send_simulation_request Demo.yaml host Demo.dt (HRef 0) w1) in
  map message_id_of (trace w2)
  = [ Some "00000000-0000-4000-8000-000000000007";
      Some "00000000-0000-4000-8000-000000000007" ].
Proof. vm_compute. reflexivity. Qed.

(** C10: [send_simulation_request] changes no object that exists when it is
    called, so the caller's mapping, and everything it refers to, is the
    same before and after; what is serialized is a new object, a shallow
    copy holding the entries of the caller's mapping. *)
Theorem send_simulation_request_frame {yaml : YamlLib} {host : Host}
    (self : client) (payload_data : hval) (w : world) :
  let w' := snd (send_simulation_request self payload_data w) in
  (forall a o, nth_error (store w) a = Some o -> nth_error (store w') a = Some o)
  /\ (forall e, In e (emitted (send_simulation_request self payload_data) w) ->
        exists a items exchange rk id,
          payload_data = HRef a
          /\ nth_error (store w) a = Some (ODict items)
          /\ nth_error (store w') a = Some (ODict items)
          /\ length (store w) <> a
          /\ nth_error (store w') (length (store w)) = Some (ODict items)
          /\ e = BasicPublish exchange rk (dump (store w') (HRef (length (store w))))
                   2 "application/x-yaml" id).
Proof.
  cbv zeta. unfold emitted.
  destruct (send_simulation_request_run self payload_data w)
    as (r & w1 & E & S & T). rewrite E. cbn [snd].
  assert (forall a o, nth_error (store w) a = Some o -> nth_error (store w1) a = Some o)
    as Hframe.
  { intros a o H. destruct S as [->|(a0 & items & _ & _ & ->)]; [exact H|].
    rewrite nth_error_app1; [exact H|]. apply nth_error_Some. congruence. }
  split; [exact Hframe|].
  intros e Hin.
  destruct T as [(T & _ & _) | (_ & _ & Hne & ex & rk & T)]; rewrite T in Hin.
  - rewrite <- (app_nil_r (trace w)) in Hin at 2. rewrite skipn_length_app in Hin.
    destruct Hin.
  - rewrite skipn_length_app in Hin. destruct Hin as [<-|[]].
    destruct S as [S|(a & items & -> & Ha & S)]; [contradiction|].
    exists a, items, ex, rk, (uuid_str (uuid4_int (urandom16 (draws w)))).
    split; [reflexivity|]. split; [exact Ha|]. split; [auto|].
    split; [ intros <-; assert (nth_error (store w) (length (store w)) = None) as N
               by (apply nth_error_None; lia); congruence |].
    split; [|reflexivity].
    rewrite S, nth_error_app2, Nat.sub_diag by lia. reflexivity.
Qed.

Lemma send_simulation_request_frame_witness :
  let w := World [] [ODict [("task", HStr "run"); ("grid", HRef 1)];
                     OList [HInt 1; HInt 2]] 0 in
  nth_error (store (snd (@send_simulation_request Demo.yaml Demo.host Demo.dt (HRef 0) w))) 0
  = Some (ODict [("task", HStr "run"); ("grid", HRef 1)]).
Proof.
  intros w.
  apply (proj1 (@send_simulation_request_frame Demo.yaml Demo.host Demo.dt (HRef 0) w)).
  reflexivity.
Defined.

(** ** The program as a whole *)

Lemma bind_returns {A B} (m : M A) (k : A -> M B) (w w' : world) (a : A) :
  m w = (Ret a, w') -> bind m k w = k a w'.
Proof. unfold bind. now intros ->. Qed.

Lemma bind_raises {A B} (m : M A) (k : A -> M B) (w w' : world) (e : exn) :
  m w = (Raise e, w') -> bind m k w = (Raise e, w').
Proof. unfold bind. now intros ->. Qed.

Section Main.
Context {yaml : YamlLib} {host : Host} {broker : Broker}.

Lemma load_config_run (path : string) (w : world) :
  load_config path w =
  match read_file path with
  | None => (Raise (SystemExit 1),
             log w [Print ("Error: Configuration file '" ++ path ++ "' not found.")])
  | Some content =>
      match safe_load content with
      | Loaded cfg => (Ret cfg, w)
      | Malformed msg => (Raise (SystemExit 1),
                          log w [Print ("Error parsing YAML file: " ++ msg)])
      | Crashed msg => (Raise (LibraryError msg), w)
      end
  end.
Proof.
  unfold load_config, try_except, bind, open_read, yaml_safe_load.
  destruct (read_file path) as [content|]; cbn; [|reflexivity].
  destruct (safe_load content); reflexivity.
Qed.

Lemma load_yaml_file_run (path : string) (w : world) :
  exists r w', load_yaml_file path w = (r, w')
    /\ trace w' = trace w /\ draws w' = draws w
    /\ (forall e, r = Raise e -> is_Exception e = true)
    /\ (read_file path = None -> r = Raise (FileNotFoundError path) /\ w' = w).
Proof.
  unfold load_yaml_file, bind, open_read, yaml_safe_load.
  destruct (read_file path) as [content|]; cbn.
  - destruct (safe_load content); cbn.
    + destruct (build v (store w)) as [x h]. eexists _, _. repeat split; discriminate.
    + eexists _, _. repeat split; try discriminate. now intros e [= <-].
    + eexists _, _. repeat split; try discriminate. now intros e [= <-].
  - eexists _, _. repeat split. now intros e [= <-].
Qed.

(** The guarded part of [main]: load the payload, send it, announce the
    wait, and wait. *)
Lemma main_try_run (dt : client) (path : string) (w1 : world) :
  let body :=
    (simulation_payload <- load_yaml_file path ;;
     send_simulation_request dt simulation_payload ;;;
     print (nl ++ "Press Ctrl+C to terminate the program...") ;;;
     sleep_forever) in
  (exists e w2, body w1 = (Raise e, w2) /\ trace w2 = trace w1
      /\ is_Exception e = true
      /\ (read_file path = None -> e = FileNotFoundError path))
  \/ (exists pub w2,
        body w1 = ((if ctrl_c then Raise KeyboardInterrupt else Ret Blocked), w2)
        /\ is_publish pub = true
        /\ trace w2 = (trace w1 ++
             [pub; Print (nl ++ "Press Ctrl+C to terminate the program...")])%list
        /\ read_file path <> None).
Proof.
  cbv zeta.
  destruct (load_yaml_file_run path w1) as (r & w2 & El & Tl & Dl & Xl & Hmiss).
  destruct r as [payload|e].
  - rewrite (bind_returns _ _ _ _ _ El).
    destruct (send_simulation_request_run dt payload w2)
      as (r & w3 & Es & _ & [(T & _ & e & -> & X) | (-> & _ & _ & ex & rk & T)]).
    + rewrite (bind_raises _ _ _ _ _ Es). left. exists e, w3.
      split; [reflexivity|]. split; [congruence|]. split; [exact X|].
      intros Hnone. destruct (Hmiss Hnone) as [? _]. discriminate.
    + rewrite (bind_returns _ _ _ _ _ Es). unfold print. rewrite bind_emit.
      right.
      exists (BasicPublish ex rk (dump (store w3) (HRef (length (store w2))))
                2 "application/x-yaml" (uuid_str (uuid4_int (urandom16 (draws w2))))).
      eexists. split; [unfold sleep_forever; destruct ctrl_c; reflexivity|].
      split; [reflexivity|]. split.
      * cbn [log trace]. rewrite T, Tl, <- app_assoc. reflexivity.
      * intros Hnone. destruct (Hmiss Hnone) as [? _]. discriminate.
  - rewrite (bind_raises _ _ _ _ _ El). left. exists e, w2.
    split; [reflexivity|]. split; [exact Tl|]. split; [now apply Xl|].
    intros Hnone. destruct (Hmiss Hnone) as [[= ->] _]. reflexivity.
Qed.

(** [main] once the configuration is loaded and the primary client is
    built: the payload is loaded and sent and the script waits, until the
    operator interrupts it, or the failure is printed. *)
Lemma main_after_init (cfg : pyval) (dt : client) (w w1 : world) :
  load_config "rabbitmq_use.yaml" w = (Ret cfg, w) ->
  RabbitMQClient_init cfg (log w [ThreadStart]) = (Ret dt, w1) ->
  (exists e w2, main w = (Raise e, w2) /\ trace w2 = trace w1
      /\ is_Exception e = true
      /\ (forall pf, subscript cfg "payload_file" = inl (PStr pf) ->
            read_file (path_join script_dir pf) <> None))
  \/ (exists line w2, main w = (Ret Returned, w2)
        /\ trace w2 = (trace w1 ++ [Print ("Error: " ++ line)])%list
        /\ (forall pf, subscript cfg "payload_file" = inl (PStr pf) ->
              read_file (path_join script_dir pf) = None ->
              line = exn_str (FileNotFoundError (path_join script_dir pf))))
  \/ (exists pub w2,
        main w = (Ret (if ctrl_c then Returned else Blocked), w2)
        /\ is_publish pub = true
        /\ trace w2
           = (trace w1 ++
              pub :: Print (nl ++ "Press Ctrl+C to terminate the program...")
              :: if ctrl_c then [Print (nl ++ "Program terminated by the user.")]
                 else [])%list
        /\ (forall pf, subscript cfg "payload_file" = inl (PStr pf) ->
              read_file (path_join script_dir pf) <> None)).
Proof.
  intros Hc Hi. unfold main.
  rewrite (bind_returns _ _ _ _ _ Hc), bind_emit, (bind_returns _ _ _ _ _ Hi).
  rewrite bind_lift.
  destruct (subscript cfg "payload_file") as [pf|e] eqn:Es;
    [|left; exists e, w1; split; [reflexivity|]; split; [reflexivity|];
      split; [eapply subscript_exception; eassumption|discriminate]].
  rewrite bind_lift.
  destruct (os_path_join script_dir pf) as [path|e] eqn:Ep;
    [|left; exists e, w1; split; [reflexivity|]; split; [reflexivity|];
      split; [destruct pf; cbn in Ep; try discriminate Ep; now injection Ep as <-
             |intros pf' [= ->]; discriminate]].
  unfold try_except.
  destruct (main_try_run dt path w1)
    as [(e & w2 & -> & T & Ex & Hmiss) | (pub & w2 & -> & P & T & Hfile)].
  - right; left.
    assert ((match e with
             | KeyboardInterrupt =>
                 print (nl ++ "Program terminated by the user.") ;;; ret Returned
             | _ => if is_Exception e
                    then print ("Error: " ++ exn_str e) ;;; ret Returned
                    else raise e
             end) w2
            = (Ret Returned, log w2 [Print ("Error: " ++ exn_str e)])) as ->
      by (destruct e; try discriminate Ex; reflexivity).
    eexists _, _.
    split; [reflexivity|]. cbn [log trace]. rewrite T. split; [reflexivity|].
    intros pf' [= ->] Hnone. cbn in Ep. inversion Ep; subst.
    now rewrite (Hmiss Hnone).
  - right; right. exists pub.
    destruct ctrl_c.
    + eexists. unfold print. rewrite bind_emit. split; [reflexivity|].
      split; [exact P|]. split.
      * cbn [log trace]. rewrite T, <- app_assoc. reflexivity.
      * intros pf' [= ->]. cbn in Ep. now inversion Ep; subst.
    + exists w2. split; [reflexivity|]. split; [exact P|]. split; [exact T|].
      intros pf' [= ->]. cbn in Ep. now inversion Ep; subst.
Qed.

(** The trace of the whole script, once the configuration is loaded. *)
Lemma run_script_trace (cfg : pyval) (w : world) :
  load_config "rabbitmq_use.yaml" w = (Ret cfg, w) ->
  exists r evs tail,
    RabbitMQClient_init cfg (log w [ThreadStart]) = (r, log (log w [ThreadStart]) evs)
    /\ trace (snd (run_script w)) = (trace w ++ ThreadStart :: evs ++ tail)%list
    /\ Forall (fun e => is_publish e = false) evs
    /\ (Forall (fun e => is_publish e = false) tail
        \/ exists dt pub rest, r = Ret dt /\ is_publish pub = true
             /\ tail = pub :: rest
             /\ Forall (fun e => is_publish e = false) rest).
Proof.
  intros Hc.
  destruct (RabbitMQClient_init_run cfg (log w [ThreadStart])) as (r & evs & Ei & F & _ & _).
  exists r, evs.
  assert (Forall (fun e => is_publish e = false) evs) as F'
    by (eapply Forall_impl; [|exact F]; now intros a [? _]).
  assert (trace (log (log w [ThreadStart]) evs) = (trace w ++ ThreadStart :: evs)%list) as Tw
    by (cbn [log trace]; now rewrite <- app_assoc).
  assert (forall e w2, trace w2 = (trace w ++ ThreadStart :: evs)%list ->
            trace (snd (match e with
                        | SystemExit c => (Exit c, w2)
                        | KeyboardInterrupt => (Exit 130%Z, log w2 [Traceback KeyboardInterrupt])
                        | _ => (Exit 1%Z, log w2 [Traceback e])
                        end))
            = (trace w ++ ThreadStart :: evs
               ++ match e with SystemExit _ => [] | _ => [Traceback e] end)%list
            /\ Forall (fun x => is_publish x = false)
                 match e with SystemExit _ => [] | _ => [Traceback e] end) as Hraise.
  { intros e w2 T.
    destruct e; cbn [snd log trace]; rewrite T, <- ?app_assoc; cbn [app];
      rewrite ?app_nil_r; split; try reflexivity; repeat constructor. }
  destruct r as [dt|e].
  - destruct (main_after_init cfg dt w _ Hc Ei)
      as [(e & w2 & Em & T & _) | [(line & w2 & Em & T & _) | (pub & w2 & Em & P & T & _)]].
    + exists (match e with SystemExit _ => [] | _ => [Traceback e] end).
      split; [exact Ei|]. rewrite Tw in T. destruct (Hraise e w2 T) as [H1 H2].
      split; [|split; [exact F'|left; exact H2]].
      rewrite <- H1. unfold run_script. rewrite Em. now destruct e.
    + exists [Print ("Error: " ++ line)].
      split; [exact Ei|]. split; [|split; [exact F'|left; repeat constructor]].
      unfold run_script. rewrite Em. cbn [snd]. rewrite T, Tw, <- app_assoc. reflexivity.
    + exists (pub :: Print (nl ++ "Press Ctrl+C to terminate the program...")
              :: if ctrl_c then [Print (nl ++ "Program terminated by the user.")] else []).
      split; [exact Ei|].
      split; [|split; [exact F'|right; exists dt, pub; eexists;
                                 split; [reflexivity|]; split; [exact P|];
                                 split; [reflexivity|];
                                 destruct ctrl_c; repeat constructor]].
      unfold run_script. rewrite Em.
      destruct ctrl_c; cbn [snd]; rewrite T, Tw, <- app_assoc; reflexivity.
  - exists (match e with SystemExit _ => [] | _ => [Traceback e] end).
    split; [exact Ei|].
    destruct (Hraise e (log (log w [ThreadStart]) evs) Tw) as [H1 H2].
    split; [|split; [exact F'|left; exact H2]].
    rewrite <- H1. unfold run_script, main.
    rewrite (bind_returns _ _ _ _ _ Hc), bind_emit, (bind_raises _ _ _ _ _ Ei).
    now destruct e.
Qed.

End Main.

(** C6, as the code has it: when the configuration file is missing or does
    not parse, the script prints a diagnostic and exits with status 1, and
    no connection to the broker has been attempted.  A missing payload file
    is noticed only after the primary client has connected and declared its
    topology; it is then reported with a diagnostic. *)
Theorem configuration_errors {yaml : YamlLib} {host : Host} {broker : Broker} :
  (read_file "rabbitmq_use.yaml" = None ->
     run_script init_world
     = (Exit 1, log init_world
                  [Print "Error: Configuration file 'rabbitmq_use.yaml' not found."])
     /\ reports_and_exits_before_connecting (run_script init_world))
  /\ (forall content msg,
        read_file "rabbitmq_use.yaml" = Some content ->
        safe_load content = Malformed msg ->
        run_script init_world
        = (Exit 1, log init_world [Print ("Error parsing YAML file: " ++ msg)])
        /\ reports_and_exits_before_connecting (run_script init_world))
  /\ (forall content cfg pf dt w1,
        read_file "rabbitmq_use.yaml" = Some content ->
        safe_load content = Loaded cfg ->
        subscript cfg "payload_file" = inl (PStr pf) ->
        read_file (path_join script_dir pf) = None ->
        RabbitMQClient_init cfg (log init_world [ThreadStart]) = (Ret dt, w1) ->
        exists c a b q d h i,
          is_connect c = true
          /\ trace (snd (run_script init_world))
             = [ ThreadStart; c; OpenChannel; a; b; QueueDeclare q d; QueueBind h q i;
                 Print ("Error: [Errno 2] No such file or directory: "
                        ++ str_repr (path_join script_dir pf)) ]).
Proof.
  split; [|split].
  - intros H.
    assert (run_script init_world
            = (Exit 1, log init_world
                 [Print "Error: Configuration file 'rabbitmq_use.yaml' not found."])) as E.
    { pose proof (load_config_run "rabbitmq_use.yaml" init_world) as Hc. rewrite H in Hc.
      unfold run_script, main. now rewrite (bind_raises _ _ _ _ _ Hc). }
    split; [exact E|]. rewrite E. repeat split. exists 1%Z. split; [reflexivity|lia].
  - intros content msg H L.
    assert (run_script init_world
            = (Exit 1, log init_world [Print ("Error parsing YAML file: " ++ msg)])) as E.
    { pose proof (load_config_run "rabbitmq_use.yaml" init_world) as Hc.
      rewrite H, L in Hc.
      unfold run_script, main. now rewrite (bind_raises _ _ _ _ _ Hc). }
    split; [exact E|]. rewrite E. repeat split. exists 1%Z. split; [reflexivity|lia].
  - intros content cfg pf dt w1 H L Hpf Hmiss Hi.
    assert (load_config "rabbitmq_use.yaml" init_world = (Ret cfg, init_world)) as Hc
      by (rewrite load_config_run, H, L; reflexivity).
    destruct (RabbitMQClient_init_run cfg (log init_world [ThreadStart]))
      as (r & evs & Ei & _ & _ & Hret).
    rewrite Hi in Ei. inversion Ei; subst r.
    destruct (Hret dt eq_refl)
      as (dtw & id & qc & p & c & a & b & d & h & i & _ & _ & _ & _ & Hcon & -> & _).
    exists c, a, b, (queue_name p id), d, h, i. split; [exact Hcon|].
    destruct (main_after_init cfg dt init_world w1 Hc Hi)
      as [(e & w2 & Em & T & _ & Hno)
         | [(line & w2 & Em & T & Hline) | (pub & w2 & Em & P & T & Hno)]].
    + destruct (Hno pf Hpf Hmiss).
    + unfold run_script. rewrite Em. cbn [snd]. rewrite T.
      rewrite (Hline pf Hpf Hmiss). replace w1 with
        (log (log init_world [ThreadStart])
           [c; OpenChannel; a; b; QueueDeclare (queue_name p id) d;
            QueueBind h (queue_name p id) i]) by congruence.
      reflexivity.
    + destruct (Hno pf Hpf Hmiss).
Qed.

Lemma configuration_errors_witness :
  @run_script Demo.yaml (Demo.host_with false true (fun _ => 0%Z)) Demo.broker init_world
  = (Exit 1, log init_world
               [Print "Error: Configuration file 'rabbitmq_use.yaml' not found."])
  /\ (let host := {| read_file := fun _ => Some (list_byte_of_string "rabbitmq: {");
                     script_dir := "/opt/client";
                     urandom16 := fun _ => 0%Z;
                     ctrl_c := false |} in
      reports_and_exits_before_connecting
        (@run_script Demo.yaml host Demo.broker init_world))
  /\ exists c a b q d h i,
       is_connect c = true
       /\ trace (snd (@run_script Demo.yaml (Demo.host_with true false (fun _ => 0%Z))
                        Demo.broker init_world))
          = [ ThreadStart; c; OpenChannel; a; b; QueueDeclare q d; QueueBind h q i;
              Print "Error: [Errno 2] No such file or directory: '/opt/client/simulation.yaml'" ].
Proof.
  split; [|split].
  - apply (proj1 (@configuration_errors Demo.yaml
                    (Demo.host_with false true (fun _ => 0%Z)) Demo.broker)).
    reflexivity.
  - intros host.
    apply (proj1 (proj2 (@configuration_errors Demo.yaml host Demo.broker))
             (list_byte_of_string "rabbitmq: {") "could not parse the document").
    + reflexivity.
    + vm_compute. reflexivity.
  - eapply (proj2 (proj2 (@configuration_errors Demo.yaml
                            (Demo.host_with true false (fun _ => 0%Z)) Demo.broker))
              (list_byte_of_string Demo.config_text) Demo.config_doc "simulation.yaml").
    + reflexivity.
    + vm_compute. reflexivity.
    + reflexivity.
    + reflexivity.
    + vm_compute. reflexivity.
Defined.

(** C6, as stated, fails for a missing payload file: the broker has been
    connected to before the diagnostic, and the process ends with status 0. *)
Lemma missing_payload_after_connect :
  let host := Demo.host_with true false (fun _ => 0%Z) in
  @read_file host "/opt/client/simulation.yaml" = None
  /\ fst (@run_script Demo.yaml host Demo.broker init_world) = Exit 0
  /\ ~ reports_and_exits_before_connecting
         (@run_script Demo.yaml host Demo.broker init_world).
Proof.
  cbv zeta. split; [reflexivity|]. split; [vm_compute; reflexivity|].
  intros (_ & _ & H). vm_compute in H. discriminate H.
Qed.

(** ** The two contexts together *)

Lemma interleaving_in {A} (l r t : list A) (x : A) :
  interleaving l r t -> In x t <-> In x l \/ In x r.
Proof.
  induction 1 as [|y l r t _ IH|y l r t _ IH]; cbn; [tauto| |]; rewrite IH; tauto.
Qed.

(** Where an element of an interleaving comes from, and what came before. *)
Lemma interleaving_split {A} (l r t : list A) :
  interleaving l r t ->
  forall pre z post, t = (pre ++ z :: post)%list ->
    (exists l1 l2 r1, l = (l1 ++ z :: l2)%list /\ interleaving l1 r1 pre)
    \/ (exists r1 r2 l1, r = (r1 ++ z :: r2)%list /\ interleaving l1 r1 pre).
Proof.
  induction 1 as [|y l r t H IH|y l r t H IH]; intros pre z post E.
  - destruct pre; discriminate.
  - destruct pre as [|p pre]; cbn in E; inversion E; subst.
    + left. exists [], l, []. split; [reflexivity|constructor].
    + destruct (IH pre z post eq_refl) as [(l1 & l2 & r1 & -> & I)|(r1 & r2 & l1 & -> & I)].
      * left. exists (p :: l1), l2, r1. split; [reflexivity|now constructor].
      * right. exists r1, r2, (p :: l1). split; [reflexivity|now constructor].
  - destruct pre as [|p pre]; cbn in E; inversion E; subst.
    + right. exists [], r, []. split; [reflexivity|constructor].
    + destruct (IH pre z post eq_refl) as [(l1 & l2 & r1 & -> & I)|(r1 & r2 & l1 & -> & I)].
      * left. exists l1, l2, (p :: r1). split; [reflexivity|now constructor].
      * right. exists (p :: r1), r2, l1. split; [reflexivity|now constructor].
Qed.

(** A list cut at an element with [q] holds every earlier stretch free of [q]. *)
Lemma cut_after_prefix {A} (q : A -> bool) (m1 : list A) :
  forall l1 x l2 m2,
    (l1 ++ x :: l2 = m1 ++ m2)%list -> q x = true ->
    Forall (fun z => q z = false) m1 ->
    exists k, l1 = (m1 ++ k)%list.
Proof.
  induction m1 as [|z m1 IH]; intros l1 x l2 m2 E Q F.
  - now exists l1.
  - inversion F as [|? ? Fz F']; subst.
    destruct l1 as [|a l1]; cbn in E; inversion E; subst; [congruence|].
    destruct (IH l1 x l2 m2 H1 Q F') as [k ->]. now exists k.
Qed.

Section Program.
Context {yaml : YamlLib} {host : Host} {broker : Broker}.

Lemma load_config_returns (path : string) (cfg : pyval) (w w0 : world) :
  load_config path w = (Ret cfg, w0) -> w0 = w.
Proof.
  rewrite load_config_run. destruct (read_file path); [|discriminate].
  destruct (safe_load l); congruence.
Qed.

(** In the primary context, whatever is published comes after the
    declaration and the binding of the result queue. *)
Lemma publish_after_topology (cfg : pyval) (l1 l2 : list event) (pub : event) :
  load_config "rabbitmq_use.yaml" init_world = (Ret cfg, init_world) ->
  trace (snd (run_script init_world)) = (l1 ++ pub :: l2)%list ->
  is_publish pub = true ->
  exists dtw id qc p d h i,
    subscript cfg "digital_twin" = inl dtw /\ subscript dtw "dt_id" = inl id
    /\ subscript cfg "queue" = inl qc
    /\ subscript qc "result_queue_prefix" = inl p
    /\ In (QueueDeclare (queue_name p id) d) l1
    /\ In (QueueBind h (queue_name p id) i) l1.
Proof.
  intros Hc E P.
  destruct (run_script_trace cfg init_world Hc) as (r & evs & tail & Ei & T & F & Htail).
  rewrite T in E. cbn [trace init_world app] in E.
  destruct Htail as [Ft | (dt & pub' & rest & -> & P' & -> & _)].
  - exfalso.
    assert (Forall (fun e => is_publish e = false) (ThreadStart :: evs ++ tail)) as Fall
      by (constructor; [reflexivity | apply Forall_app; now split]).
    rewrite E in Fall. apply Forall_app in Fall as [_ Fall].
    inversion Fall; congruence.
  - destruct (RabbitMQClient_init_run cfg (log init_world [ThreadStart]))
      as (r' & evs' & Ei' & _ & _ & Hret).
    rewrite Ei in Ei'. inversion Ei' as [[Er Ew]]. subst r'.
    assert (evs' = evs) as ->.
    { unfold log in Ew. cbn [trace init_world app] in Ew. now inversion Ew. }
    destruct (Hret dt eq_refl)
      as (dtw & id & qc & p & c & a & b & d & h & i & E1 & E2 & E3 & E4 & _ & -> & _).
    exists dtw, id, qc, p, d, h, i. repeat (split; [assumption|]).
    destruct (cut_after_prefix is_publish
                [ThreadStart; c; OpenChannel; a; b; QueueDeclare (queue_name p id) d;
                 QueueBind h (queue_name p id) i]
                l1 pub l2 (pub' :: rest))
      as [k ->]; [symmetry; exact E | exact P | | ].
    + constructor; [reflexivity|]. exact F.
    + split; apply in_or_app; left; cbn; tauto.
Qed.

End Program.

(** C4, as the code has it: in every execution in which the primary context
    publishes the request, the primary context has itself, before that,
    declared the result queue and bound it, under the very name the listener
    consumes from; so the queue exists when the request goes out, whatever
    point the listener has reached. *)
Theorem result_queue_declared_before_publish
    {yaml : YamlLib} {host : Host} {broker : Broker}
    (incoming : list (Deliver * list Byte.byte)) (t : list (context * event))
    (pre post : list (context * event)) (x : context * event) :
  execution incoming t ->
  t = (pre ++ x :: post)%list ->
  primary_publish x = true ->
  exists queue,
    existsb (declares Primary queue) pre = true
    /\ existsb (binds Primary queue) pre = true
    /\ forall e q, In (Listener, e) t -> queue_of e = Some q -> q = Some queue.
Proof.
  intros (cfg & w0 & after & done & rest & t' & Hc & Tp & Tl & I & ->) E P.
  pose proof (load_config_returns _ _ _ _ Hc) as ->.
  destruct x as [[|] pub]; try discriminate P.
  assert (is_publish pub = true) as P' by (destruct pub; try discriminate; reflexivity).
  destruct pre as [|p0 pre]; cbn in E; inversion E as [[E0 E']]; [subst; discriminate|].
  subst p0.
  destruct (interleaving_split _ _ _ I pre (Primary, pub) post E')
    as [(l1 & l2 & r1 & El & I1) | (r1 & r2 & l1 & Er & _)].
  2:{ exfalso. assert (In (Primary, pub) (map (pair Listener) done)) as Hin
        by (rewrite Er; apply in_or_app; right; now left).
      apply in_map_iff in Hin as (? & [=] & _). }
  apply map_eq_app in El as (a1 & a2' & -> & <- & Ea).
  destruct a2' as [|z a2]; [discriminate|]. cbn in Ea. inversion Ea; subst.
  destruct (publish_after_topology cfg (ThreadStart :: a1) a2 pub Hc Tp P')
    as (dtw & id & qc & p & d & h & i & E1 & E2 & E3 & E4 & Hd & Hb).
  destruct Hd as [|Hd]; [discriminate|]. destruct Hb as [|Hb]; [discriminate|].
  exists (queue_name p id).
  assert (forall e, In e a1 -> In (Primary, e) ((Primary, ThreadStart) :: pre)) as Hpre.
  { intros e He. right. apply (interleaving_in _ _ _ _ I1). left. now apply in_map. }
  split; [|split].
  - apply existsb_exists. exists (Primary, QueueDeclare (queue_name p id) d).
    split; [now apply Hpre|]. cbn. apply String.eqb_refl.
  - apply existsb_exists. exists (Primary, QueueBind h (queue_name p id) i).
    split; [now apply Hpre|]. cbn. apply String.eqb_refl.
  - intros e q [|Hin] Hq; [discriminate|].
    apply (interleaving_in _ _ _ _ I) in Hin as [Hin|Hin];
      apply in_map_iff in Hin as (e' & Heq & Hin); inversion Heq; subst e'.
    destruct (start_dt_listener_run cfg incoming init_world) as (r & evs & Es & _ & Hqs).
    rewrite Es in Tl. cbn [snd log trace init_world app] in Tl.
    destruct (Hqs e q) as (dtw' & id' & qc' & p' & F1 & F2 & F3 & F4 & ->); auto.
    + rewrite Tl. apply in_or_app. now left.
    + congruence.
Qed.

Lemma demo_execution :
  @execution Demo.yaml Demo.host Demo.broker [] DemoRun.primary_first.
Proof.
  exists Demo.config_doc, init_world. eexists _, _, [], _.
  split; [vm_compute; reflexivity|].
  split; [vm_compute; reflexivity|].
  split; [rewrite app_nil_r; vm_compute; reflexivity|].
  split; [|reflexivity].
  cbn [map]. repeat constructor.
Defined.

Lemma result_queue_declared_before_publish_witness :
  exists queue,
    existsb (declares Primary queue) DemoRun.before_request = true
    /\ existsb (binds Primary queue) DemoRun.before_request = true
    /\ forall e q, In (Listener, e) DemoRun.primary_first ->
                   queue_of e = Some q -> q = Some queue.
Proof.
  apply (@result_queue_declared_before_publish Demo.yaml Demo.host Demo.broker []
           DemoRun.primary_first DemoRun.before_request DemoRun.after_request
           DemoRun.the_request demo_execution eq_refl eq_refl).
Defined.

(** C4, as stated, fails: there is an execution in which the primary context
    publishes before the listener has declared anything. *)
Lemma listener_may_declare_after_publish :
  exists t,
    @execution Demo.yaml Demo.host Demo.broker [] t
    /\ ~ preceded_by listener_bound primary_publish t.
Proof.
  exists DemoRun.primary_first. split; [exact demo_execution|].
  intros H.
  specialize (H DemoRun.before_request DemoRun.the_request DemoRun.after_request
                eq_refl eq_refl).
  discriminate H.
Qed.

(** * Further properties of the client *)

(** ** Outcomes of deliveries *)

(** X2: the consume loop answers the deliveries one by one in the order they
    arrive: after [n] deliveries there are exactly [n] outcomes, the k-th
    for the tag of the k-th delivery, and the loop has not raised. *)
Theorem start_consuming_outcomes {yaml : YamlLib}
    (self : client) (incoming : list (Deliver * list Byte.byte)) (w : world) :
  exists evs,
    start_consuming (handle_result self) incoming w = (Ret tt, log w evs)
    /\ map outcome_tag (outcomes evs)
       = map (fun d => Some (delivery_tag (fst d))) incoming.
Proof.
  revert w. induction incoming as [|[method body] rest IH]; intros w.
  - exists []. now rewrite log_nil.
  - rewrite start_consuming_next, handle_result_run. cbn [snd].
    match goal with |- context [log w ?l] => set (evs := l) end.
    assert (map outcome_tag (outcomes evs) = [Some (delivery_tag method)]) as O.
    { subst evs. destruct (safe_load body) as [v| |];
        [destruct (py_upper (dt_id self)); [destruct (has_wide_int v)|]| |];
        reflexivity. }
    destruct (IH (log w evs)) as (evs' & E' & O').
    exists (evs ++ evs')%list. rewrite E', log_log. split; [reflexivity|].
    unfold outcomes in *. now rewrite filter_app, map_app, O, O'.
Qed.

(** ** The constructor *)

(** Running a method statement by statement, each lookup decided once. *)
Ltac exec_step :=
  lazymatch goal with
  | |- context [bind (lift (inl ?a)) ?k ?w] => rewrite (bind_lift (inl a) k w)
  | |- context [bind (lift (inr ?e)) ?k ?w] => rewrite (bind_lift (inr e) k w)
  | |- context [bind (lift ?r) ?k ?w] => rewrite (bind_lift r k w); destruct r eqn:?
  | |- context [bind (request ?e ?x) ?k ?w] =>
      rewrite (bind_request e x k w); destruct (accepts (trace w) e) eqn:?
  | |- context [bind (emit ?e) ?k ?w] => rewrite (bind_emit e k w)
  | |- context [bind (ret ?a) ?k ?w] => rewrite (bind_ret a k w)
  | |- context [bind (bind ?m ?k) ?k' ?w] => rewrite (bind_bind m k k' w)
  | |- context [bind (if ?b then ?m1 else ?m2) ?k ?w] => destruct b eqn:?
  end.

Ltac exec :=
  autounfold with run; cbn [config dt_id result_queue_name];
  repeat (exec_step; cbv beta iota; cbn [config dt_id result_queue_name]);
  unfold emit, ret, raise;
  rewrite ?log_log; cbn [app].

Lemma subscript_dict (v x : pyval) (k : string) :
  subscript v k = inl x -> exists items, v = PDict items /\ assoc k items = Some x.
Proof.
  destruct v; cbn; try discriminate.
  destruct (assoc k items) eqn:E; [|discriminate]. intros [= ->]. eauto.
Qed.

Lemma dict_get_setting (items : list (string * pyval)) (k : string) (d x : pyval) :
  dict_get (PDict items) k d = inl x -> x = setting items k d.
Proof. unfold dict_get, setting. destruct (assoc k items); congruence. Qed.

Ltac raised_exception :=
  let e := fresh "e" in
  intros e [= <-];
  first [ reflexivity
        | eapply subscript_exception; eassumption
        | eapply dict_get_exception; eassumption
        | eapply queue_name_fstring_exception; eassumption ].

Section Constructor.
Context {broker : Broker}.

#[local] Hint Unfold setup_infrastructure exchange_declare queue_declare queue_bind
  RabbitMQClient_init connect open_channel : run.

(** Everything a run of the constructor asks of the broker. *)
Lemma RabbitMQClient_init_requests (cfg : pyval) (w : world) :
  exists r evs, RabbitMQClient_init cfg w = (r, log w evs)
    /\ match evs with
       | [] => exists e, r = Raise e /\ is_Exception e = true
       | c :: rest =>
           (exists items host username password,
              subscript cfg "rabbitmq" = inl (PDict items)
              /\ assoc "host" items = Some host
              /\ assoc "username" items = Some username
              /\ assoc "password" items = Some password
              /\ c = connection_request items host username password)
           /\ Forall (fun e => is_connect e = false /\ is_outcome e = false
                               /\ is_start_consuming e = false
                               /\ is_publish e = false) rest
           /\ (accepts (trace w) c = false -> rest = [] /\ r = Raise AMQPConnectionError)
           /\ (forall e, r = Raise e -> is_Exception e = true)
           /\ (forall dt, r = Ret dt ->
                 exists id in_name in_type in_dur res_name res_type res_dur prefix q_dur rk,
                   at2 cfg "digital_twin" "dt_id" = Some id
                   /\ at3 cfg "exchanges" "input_bridge" "name" = Some in_name
                   /\ at3 cfg "exchanges" "input_bridge" "type" = Some in_type
                   /\ at3 cfg "exchanges" "input_bridge" "durable" = Some in_dur
                   /\ at3 cfg "exchanges" "bridge_result" "name" = Some res_name
                   /\ at3 cfg "exchanges" "bridge_result" "type" = Some res_type
                   /\ at3 cfg "exchanges" "bridge_result" "durable" = Some res_dur
                   /\ at2 cfg "queue" "result_queue_prefix" = Some prefix
                   /\ at2 cfg "queue" "durable" = Some q_dur
                   /\ at2 cfg "queue" "routing_key" = Some rk
                   /\ rest = [ OpenChannel;
                               ExchangeDeclare in_name in_type in_dur;
                               ExchangeDeclare res_name res_type res_dur;
                               QueueDeclare (queue_name prefix id) q_dur;
                               QueueBind res_name (queue_name prefix id) rk ]
                   /\ dt = Client cfg id (Some (queue_name prefix id)))
       end.
Proof.
  exec.
  all: eexists; eexists; split;
       [ first [ reflexivity | rewrite <- (log_nil w) at 1; reflexivity ] | ].
  all: cbv beta iota.
  all: queue_named.
  all: try (eexists; split;
            [ reflexivity
            | first [ reflexivity
                    | eapply subscript_exception; eassumption
                    | eapply dict_get_exception; eassumption ] ]).
  all: match goal with
       | H : subscript ?p "username" = inl _ |- _ =>
           let items := fresh "items" in
           let E := fresh "E" in
           destruct (subscript_dict _ _ _ H) as (items & E & _); subst p
       end.
  all: repeat match goal with
         | H : dict_get (PDict _) _ _ = inl _ |- _ => apply dict_get_setting in H; subst
         end.
  all: repeat match goal with
         | H : subscript (PDict ?items) ?k = inl ?x |- _ =>
             let F := fresh "F" in
             assert (assoc k items = Some x) as F
               by (cbn in H; destruct (assoc k items); congruence);
             clear H
         end.
  all: split;
       [ eexists _, _, _, _; split; [reflexivity|];
         repeat (split; [eassumption|]);
         unfold connection_request;
         match goal with H : truthy _ = _ |- _ => rewrite H end; reflexivity | ].
  all: split; [ repeat constructor | ].
  all: split; [ first [ intros _; split; reflexivity | congruence ] | ].
  all: split; [ raised_exception || discriminate | ].
  all: intros dt Hdt; try discriminate Hdt.
  all: inversion Hdt; subst dt.
  all: eexists _, _, _, _, _, _, _, _, _, _.
  all: unfold at3, at2.
  all: repeat match goal with H : subscript _ _ = inl _ |- _ => rewrite H end.
  all: repeat (split; [reflexivity|]).
  all: reflexivity.
Qed.

End Constructor.

(** X3: the first thing the constructor asks of the broker is one
    connection, with the host, user name and password of the [rabbitmq]
    section, TLS when [tls] is set to a true value, port 5671 with TLS and
    5672 without unless [port] is given, virtual host [/] and heartbeat 600
    unless given; it never asks for a second connection, and when the broker
    refuses the connection it asks for nothing else. *)
Theorem connection_defaults {broker : Broker}
    (cfg : pyval) (w : world) (c : event) (rest : list event) :
  emitted (RabbitMQClient_init cfg) w = c :: rest ->
  (exists items host username password,
     subscript cfg "rabbitmq" = inl (PDict items)
     /\ assoc "host" items = Some host
     /\ assoc "username" items = Some username
     /\ assoc "password" items = Some password
     /\ c = connection_request items host username password)
  /\ Forall (fun e => is_connect e = false) rest
  /\ (accepts (trace w) c = false ->
      rest = [] /\ fst (RabbitMQClient_init cfg w) = Raise AMQPConnectionError).
Proof.
  destruct (RabbitMQClient_init_requests cfg w) as (r & evs & E & H).
  rewrite (emitted_log _ _ _ _ E), E. intros ->.
  destruct H as (H1 & H2 & H3 & _). split; [exact H1|]. split.
  - eapply Forall_impl; [|exact H2]. now intros a [? _].
  - intros Hc. destruct (H3 Hc) as [-> ->]. split; reflexivity.
Qed.

Lemma connection_defaults_witness :
  exists rest,
    emitted (@RabbitMQClient_init Demo.broker Demo.config_doc) init_world
    = Connect false (PStr "localhost") (PInt 5672) (PStr "/") (PStr "guest")
        (PStr "guest") (PInt 600) :: rest
    /\ Forall (fun e => is_connect e = false) rest.
Proof.
  eexists. split; [vm_compute; reflexivity|].
  eapply (@connection_defaults Demo.broker Demo.config_doc init_world).
  vm_compute. reflexivity.
Defined.

(** X4: a client is constructed only after the broker has accepted, in this
    order, the connection, a channel, the input exchange and the result
    exchange with the name, type and durability the configuration gives
    them, the result queue with the configured durability, and its binding
    to the result exchange under the configured routing key.  The client
    then holds the configuration, the identity and the queue name; nothing
    was allocated and no randomness read. *)
Theorem constructed_client {broker : Broker}
    (cfg : pyval) (w w' : world) (dt : client) :
  RabbitMQClient_init cfg w = (Ret dt, w') ->
  exists c id in_name in_type in_dur res_name res_type res_dur prefix q_dur rk,
    is_connect c = true
    /\ at2 cfg "digital_twin" "dt_id" = Some id
    /\ at3 cfg "exchanges" "input_bridge" "name" = Some in_name
    /\ at3 cfg "exchanges" "input_bridge" "type" = Some in_type
    /\ at3 cfg "exchanges" "input_bridge" "durable" = Some in_dur
    /\ at3 cfg "exchanges" "bridge_result" "name" = Some res_name
    /\ at3 cfg "exchanges" "bridge_result" "type" = Some res_type
    /\ at3 cfg "exchanges" "bridge_result" "durable" = Some res_dur
    /\ at2 cfg "queue" "result_queue_prefix" = Some prefix
    /\ at2 cfg "queue" "durable" = Some q_dur
    /\ at2 cfg "queue" "routing_key" = Some rk
    /\ w' = log w [ c; OpenChannel;
                    ExchangeDeclare in_name in_type in_dur;
                    ExchangeDeclare res_name res_type res_dur;
                    QueueDeclare (queue_name prefix id) q_dur;
                    QueueBind res_name (queue_name prefix id) rk ]
    /\ dt = Client cfg id (Some (queue_name prefix id)).
Proof.
  intros E0.
  destruct (RabbitMQClient_init_requests cfg w) as (r & evs & E & H).
  rewrite E0 in E. inversion E as [[Er Ew]]. subst r.
  destruct evs as [|c rest]; [destruct H as (e & [=] & _)|].
  destruct H as ((items & h & u & p & _ & _ & _ & _ & ->) & _ & _ & _ & Hret).
  destruct (Hret dt eq_refl)
    as (id & a1 & a2 & a3 & b1 & b2 & b3 & prefix & qd & rk & H).
  exists (connection_request items h u p), id, a1, a2, a3, b1, b2, b3, prefix, qd, rk.
  split; [reflexivity|].
  repeat (destruct H as [? H]; split; [assumption|]).
  destruct H as [-> ->]. split; reflexivity.
Qed.

Lemma constructed_client_witness :
  exists c,
    is_connect c = true
    /\ snd (@RabbitMQClient_init Demo.broker Demo.config_doc init_world)
       = log init_world
           [ c; OpenChannel;
             ExchangeDeclare (PStr "ex.input") (PStr "topic") (PBool true);
             ExchangeDeclare (PStr "ex.result") (PStr "topic") (PBool true);
             QueueDeclare "Q.dt.result" (PBool true);
             QueueBind (PStr "ex.result") "Q.dt.result" (PStr "*.result") ].
Proof.
  destruct (@constructed_client Demo.broker Demo.config_doc init_world _ _ eq_refl)
    as (c & id & a1 & a2 & a3 & b1 & b2 & b3 & prefix & qd & rk
        & Hc & E1 & E2 & E3 & E4 & E5 & E6 & E7 & E8 & E9 & E10 & Ew & _).
  exists c. split; [exact Hc|].
  vm_compute in E1, E2, E3, E4, E5, E6, E7, E8, E9, E10.
  inversion E1; inversion E2; inversion E3; inversion E4; inversion E5;
    inversion E6; inversion E7; inversion E8; inversion E9; inversion E10; subst.
  exact Ew.
Defined.

(** X5: two clients built from the same configuration, whatever each
    connection has seen before, have asked the broker for exactly the same
    connection, exchanges, queue and binding, and are equal as clients: the
    primary context and the listener redeclare one and the same topology. *)
Theorem same_configuration_same_requests {broker : Broker}
    (cfg : pyval) (w1 w1' w2 w2' : world) (dt1 dt2 : client) :
  RabbitMQClient_init cfg w1 = (Ret dt1, w1') ->
  RabbitMQClient_init cfg w2 = (Ret dt2, w2') ->
  emitted (RabbitMQClient_init cfg) w1 = emitted (RabbitMQClient_init cfg) w2
  /\ dt1 = dt2.
Proof.
  intros E1 E2.
  destruct (RabbitMQClient_init_requests cfg w1) as (r1 & evs1 & F1 & H1).
  destruct (RabbitMQClient_init_requests cfg w2) as (r2 & evs2 & F2 & H2).
  rewrite (emitted_log _ _ _ _ F1), (emitted_log _ _ _ _ F2).
  rewrite E1 in F1. rewrite E2 in F2.
  inversion F1 as [[R1 W1]]. inversion F2 as [[R2 W2]]. subst r1 r2.
  destruct evs1 as [|c1 rest1]; [destruct H1 as (e & [=] & _)|].
  destruct evs2 as [|c2 rest2]; [destruct H2 as (e & [=] & _)|].
  destruct H1 as ((items1 & h1 & u1 & p1 & A1 & B1 & C1 & D1 & ->) & _ & _ & _ & Hret1).
  destruct H2 as ((items2 & h2 & u2 & p2 & A2 & B2 & C2 & D2 & ->) & _ & _ & _ & Hret2).
  assert (items2 = items1) as -> by congruence.
  assert (h2 = h1) as -> by congruence.
  assert (u2 = u1) as -> by congruence.
  assert (p2 = p1) as -> by congruence.
  destruct (Hret1 dt1 eq_refl)
    as (id & a1 & a2 & a3 & b1 & b2 & b3 & prefix & qd & rk
        & K1 & K2 & K3 & K4 & K5 & K6 & K7 & K8 & K9 & K10 & -> & ->).
  destruct (Hret2 dt2 eq_refl)
    as (id' & a1' & a2' & a3' & b1' & b2' & b3' & prefix' & qd' & rk'
        & L1 & L2 & L3 & L4 & L5 & L6 & L7 & L8 & L9 & L10 & -> & ->).
  rewrite K1 in L1; rewrite K2 in L2; rewrite K3 in L3; rewrite K4 in L4;
    rewrite K5 in L5; rewrite K6 in L6; rewrite K7 in L7; rewrite K8 in L8;
    rewrite K9 in L9; rewrite K10 in L10.
  inversion L1; inversion L2; inversion L3; inversion L4; inversion L5;
    inversion L6; inversion L7; inversion L8; inversion L9; inversion L10; subst.
  split; reflexivity.
Qed.

Lemma same_configuration_same_requests_witness :
  emitted (@RabbitMQClient_init Demo.broker Demo.config_doc) init_world
  = emitted (@RabbitMQClient_init Demo.broker Demo.config_doc)
      (log init_world [ThreadStart]).
Proof.
  eapply (@same_configuration_same_requests Demo.broker Demo.config_doc
            init_world _ (log init_world [ThreadStart]) _ _ _).
  - vm_compute. reflexivity.
  - vm_compute. reflexivity.
Defined.

(** ** The listener *)

(** X6: when the configured identity is not a string (a number, say), the
    listener thread never consumes: [start_dt_listener] raises before
    [start_consuming], whatever the broker answers and whatever deliveries
    wait, so no delivery is ever acknowledged or rejected by it. *)
Theorem listener_needs_string_identity {yaml : YamlLib} {broker : Broker}
    (cfg id : pyval) (incoming : list (Deliver * list Byte.byte)) (w : world) :
  at2 cfg "digital_twin" "dt_id" = Some id ->
  (forall s, id <> PStr s) ->
  (exists e, fst (start_dt_listener cfg incoming w) = Raise e)
  /\ Forall (fun x => is_start_consuming x = false /\ is_outcome x = false)
       (emitted (start_dt_listener cfg incoming) w).
Proof.
  intros Hid Hns. unfold emitted, start_dt_listener, bind.
  destruct (RabbitMQClient_init_requests cfg w) as (r & evs & E & H).
  rewrite E. destruct r as [dt|e].
  - destruct evs as [|c rest]; [destruct H as (e & [=] & _)|].
    destruct H as ((items & h & u & p & _ & _ & _ & _ & ->) & F & _ & _ & Hret).
    destruct (Hret dt eq_refl)
      as (id' & a1 & a2 & a3 & b1 & b2 & b3 & prefix & qd & rk & K1 & _ & _ & _ & _ & _
          & _ & _ & _ & _ & -> & ->).
    assert (id' = id) as -> by congruence.
    unfold start_listening, basic_consume.
    rewrite bind_request. cbn [dt_id result_queue_name].
    destruct (accepts _ _).
    + rewrite bind_lift.
      destruct id; try (now destruct (Hns s)); cbn [py_upper fst snd];
        (split; [eauto|]); rewrite log_log; cbn [log trace];
        rewrite skipn_length_app; repeat constructor.
    + cbn [fst snd]. split; [eauto|]. rewrite log_log. cbn [log trace].
      rewrite skipn_length_app. repeat constructor.
  - cbn [fst snd]. split; [eauto|]. cbn [log trace]. rewrite skipn_length_app.
    destruct evs as [|c rest]; [constructor|].
    destruct H as ((items & h & u & p & _ & _ & _ & _ & ->) & F & _).
    constructor; [now split|]. eapply Forall_impl; [|exact F]. now intros a (_ & ? & ? & _).
Qed.

Lemma listener_needs_string_identity_witness :
  @start_dt_listener Demo.yaml Demo.broker numeric_identity_config
    [(Demo.deliver "solverA.done" 7, list_byte_of_string "status: ok")] init_world
  = (Raise (AttributeError "'int' object has no attribute 'upper'"),
     log init_world
       [ Connect false (PStr "localhost") (PInt 5672) (PStr "/") (PStr "guest")
           (PStr "guest") (PInt 600);
         OpenChannel;
         ExchangeDeclare (PStr "ex.input") (PStr "topic") (PBool true);
         ExchangeDeclare (PStr "ex.result") (PStr "topic") (PBool true);
         QueueDeclare "Q.42.result" (PBool true);
         QueueBind (PStr "ex.result") "Q.42.result" (PStr "*.result");
         BasicConsume (Some "Q.42.result") ])
  /\ exists e,
       fst (@start_dt_listener Demo.yaml Demo.broker numeric_identity_config
              [(Demo.deliver "solverA.done" 7, list_byte_of_string "status: ok")]
              init_world)
       = Raise e.
Proof.
  split; [vm_compute; reflexivity|].
  apply (@listener_needs_string_identity Demo.yaml Demo.broker
           numeric_identity_config (PInt 42)).
  - reflexivity.
  - discriminate.
Defined.

(** ** Sending *)

Section Sending.
Context {yaml : YamlLib} {host : Host}.

Lemma amqp_short_string_run (field : string) (v : pyval) :
  if is_short_string v then amqp_short_string field v = inl tt
  else exists e, amqp_short_string field v = inr e /\ is_Exception e = true.
Proof.
  destruct v; cbn; eauto.
  destruct (Nat.leb (String.length s) 255); eauto.
Qed.

(** [send_simulation_request] on a mapping, statement by statement. *)
Lemma send_simulation_request_eq (self : client) (a : addr)
    (items : list (string * hval)) (w : world) :
  nth_error (store w) a = Some (ODict items) ->
  let w1 := World (trace w) (store w ++ [ODict items])%list (draws w) in
  let w2 := World (trace w) (store w ++ [ODict items])%list (S (draws w)) in
  send_simulation_request self (HRef a) w =
  if reaches_wide_int (S (length (store w1))) (store w1) (HRef (length (store w)))
  then (Raise digits_limit_error, w1)
  else
    match subscript (config self) "digital_twin" with
    | inr e => (Raise e, w1)
    | inl dtw =>
    match subscript dtw "routing_key_send" with
    | inr e => (Raise e, w1)
    | inl rk =>
    match subscript (config self) "exchanges" with
    | inr e => (Raise e, w1)
    | inl exs =>
    match subscript exs "input_bridge" with
    | inr e => (Raise e, w1)
    | inl ib =>
    match subscript ib "name" with
    | inr e => (Raise e, w1)
    | inl name =>
    match amqp_short_string "exchange" name with
    | inr e => (Raise e, w2)
    | inl _ =>
    match amqp_short_string "routing_key" rk with
    | inr e => (Raise e, w2)
    | inl _ =>
        (Ret tt,
         World (trace w ++
                [BasicPublish name rk (dump (store w1) (HRef (length (store w))))
                   2 "application/x-yaml"
                   (uuid_str (uuid4_int (urandom16 (draws w))))])%list
               (store w1) (S (draws w)))
    end end end end end end end.
Proof.
  intros Ea. cbv zeta.
  unfold send_simulation_request. unfold bind at 1, dict_display. rewrite Ea.
  cbn [alloc]. unfold bind at 1, yaml_dump. cbn [store].
  destruct (reaches_wide_int _ _ _); [reflexivity|].
  repeat (rewrite bind_lift;
          match goal with
          | |- context [match ?x with inl _ => _ | inr _ => _ end] =>
              destruct x; [|reflexivity]
          end).
  unfold bind at 1, uuid4. cbn [trace store draws]. unfold basic_publish.
  repeat (rewrite bind_lift;
          match goal with
          | |- context [match ?x with inl _ => _ | inr _ => _ end] =>
              destruct x; [|reflexivity]
          end).
  reflexivity.
Qed.

(** The ways through [send_simulation_request]. *)
Lemma send_simulation_request_cases (self : client) (payload_data : hval) (w : world) :
  match mapping_items (store w) payload_data with
  | None =>
      exists msg, send_simulation_request self payload_data w = (Raise (TypeError msg), w)
  | Some items =>
      let w1 := World (trace w) (store w ++ [ODict items])%list (draws w) in
      if reaches_wide_int (S (length (store w1))) (store w1) (HRef (length (store w)))
      then send_simulation_request self payload_data w = (Raise digits_limit_error, w1)
      else
        match at2 (config self) "digital_twin" "routing_key_send",
              at3 (config self) "exchanges" "input_bridge" "name" with
        | Some rk, Some exchange =>
            if (is_short_string exchange && is_short_string rk)%bool
            then send_simulation_request self payload_data w
                 = (Ret tt,
                    World (trace w ++
                           [BasicPublish exchange rk
                              (dump (store w1) (HRef (length (store w))))
                              2 "application/x-yaml"
                              (uuid_str (uuid4_int (urandom16 (draws w))))])%list
                          (store w1) (S (draws w)))
            else exists e,
                   send_simulation_request self payload_data w
                   = (Raise e, World (trace w) (store w1) (S (draws w)))
                   /\ is_Exception e = true
        | _, _ =>
            exists e, send_simulation_request self payload_data w = (Raise e, w1)
                      /\ is_Exception e = true
        end
  end.
Proof.
  unfold mapping_items.
  destruct payload_data as [| | | |a];
    try (unfold send_simulation_request, bind, dict_display; eexists; reflexivity).
  destruct (nth_error (store w) a) as [[l|items]|] eqn:Ea;
    try (unfold send_simulation_request, bind, dict_display; rewrite Ea;
         eexists; reflexivity).
  rewrite (send_simulation_request_eq self a items w Ea). cbv zeta.
  destruct (reaches_wide_int _ _ _); [reflexivity|].
  unfold at3, at2.
  destruct (subscript (config self) "digital_twin") as [dtw|e] eqn:E1;
    [|exists e; split; [reflexivity | eapply subscript_exception; eassumption]].
  destruct (subscript dtw "routing_key_send") as [rk|e] eqn:E2;
    [|exists e; split; [reflexivity | eapply subscript_exception; eassumption]].
  destruct (subscript (config self) "exchanges") as [exs|e] eqn:E3;
    [|exists e; split; [reflexivity | eapply subscript_exception; eassumption]].
  destruct (subscript exs "input_bridge") as [ib|e] eqn:E4;
    [|exists e; split; [reflexivity | eapply subscript_exception; eassumption]].
  destruct (subscript ib "name") as [name|e] eqn:E5;
    [|exists e; split; [reflexivity | eapply subscript_exception; eassumption]].
  pose proof (amqp_short_string_run "exchange" name) as Sx.
  pose proof (amqp_short_string_run "routing_key" rk) as Sk.
  destruct (is_short_string name).
  - rewrite Sx. destruct (is_short_string rk).
    + rewrite Sk. reflexivity.
    + destruct Sk as (e & -> & X). exists e. split; [reflexivity|exact X].
  - destruct Sx as (e & -> & X). exists e. split; [reflexivity|exact X].
Qed.

End Sending.

(** X7: whatever [send_simulation_request] publishes is one message, to the
    exchange named by [exchanges.input_bridge.name] and with the routing key
    [digital_twin.routing_key_send] of the configuration, both of them
    strings of at most 255 bytes, persistent and marked as YAML; and the call
    returns normally exactly when it has published.  So it returns normally
    only when the payload is a mapping, both settings exist and both are
    such strings. *)
Theorem send_simulation_request_target {yaml : YamlLib} {host : Host}
    (self : client) (payload_data : hval) (w : world) :
  (fst (send_simulation_request self payload_data w) = Ret tt
   <-> emitted (send_simulation_request self payload_data) w <> [])
  /\ forall e, In e (emitted (send_simulation_request self payload_data) w) ->
       exists items rk exchange body id,
         mapping_items (store w) payload_data = Some items
         /\ at2 (config self) "digital_twin" "routing_key_send" = Some rk
         /\ at3 (config self) "exchanges" "input_bridge" "name" = Some exchange
         /\ is_short_string rk = true
         /\ is_short_string exchange = true
         /\ e = BasicPublish exchange rk body 2 "application/x-yaml" id
         /\ emitted (send_simulation_request self payload_data) w = [e].
Proof.
  pose proof (send_simulation_request_cases self payload_data w) as H.
  unfold emitted.
  assert (forall e w1, trace w1 = trace w ->
            send_simulation_request self payload_data w = (Raise e, w1) ->
            (fst (send_simulation_request self payload_data w) = Ret tt
             <-> skipn (length (trace w))
                   (trace (snd (send_simulation_request self payload_data w))) <> [])
            /\ forall x, In x (skipn (length (trace w))
                                 (trace (snd (send_simulation_request self payload_data w))))
                         -> False) as Hfail.
  { intros e w1 T ->. cbn [fst snd]. rewrite T, skipn_all. split.
    - split; [discriminate|congruence].
    - intros x []. }
  assert (forall e w1, trace w1 = trace w ->
            send_simulation_request self payload_data w = (Raise e, w1) ->
            (fst (send_simulation_request self payload_data w) = Ret tt
             <-> skipn (length (trace w))
                   (trace (snd (send_simulation_request self payload_data w))) <> [])
            /\ forall x, In x (skipn (length (trace w))
                                 (trace (snd (send_simulation_request self payload_data w))))
                 -> exists items rk exchange body id,
                      mapping_items (store w) payload_data = Some items
                      /\ at2 (config self) "digital_twin" "routing_key_send" = Some rk
                      /\ at3 (config self) "exchanges" "input_bridge" "name" = Some exchange
                      /\ is_short_string rk = true
                      /\ is_short_string exchange = true
                      /\ x = BasicPublish exchange rk body 2 "application/x-yaml" id
                      /\ skipn (length (trace w))
                           (trace (snd (send_simulation_request self payload_data w))) = [x])
    as Hfail'.
  { intros e w1 T E. destruct (Hfail e w1 T E) as [A B]. split; [exact A|].
    intros x Hin. destruct (B x Hin). }
  destruct (mapping_items (store w) payload_data) as [items|] eqn:Em.
  - cbv zeta in H.
    destruct (reaches_wide_int _ _ _); [eapply Hfail'; [|exact H]; reflexivity|].
    destruct (at2 (config self) "digital_twin" "routing_key_send") as [rk|];
      [destruct (at3 (config self) "exchanges" "input_bridge" "name") as [ex|]|].
    + destruct (is_short_string ex) eqn:Sx; [destruct (is_short_string rk) eqn:Sk|];
        cbn [andb] in H.
      * rewrite H. cbn [fst snd trace]. rewrite skipn_length_app. split.
        -- split; [discriminate|reflexivity].
        -- intros e [<-|[]]. eexists items, rk, ex, _, _.
           repeat split; first [reflexivity | assumption].
      * destruct H as (e & H & _). eapply Hfail'; [|exact H]. reflexivity.
      * destruct H as (e & H & _). eapply Hfail'; [|exact H]. reflexivity.
    + destruct H as (e & H & _). eapply Hfail'; [|exact H]. reflexivity.
    + destruct H as (e & H & _). eapply Hfail'; [|exact H]. reflexivity.
  - destruct H as (msg & H). eapply Hfail'; [|exact H]. reflexivity.
Qed.

Lemma send_simulation_request_target_witness :
  exists items rk exchange body id,
    mapping_items [ODict [("task", HStr "run")]] (HRef 0) = Some items
    /\ at2 Demo.config_doc "digital_twin" "routing_key_send" = Some rk
    /\ at3 Demo.config_doc "exchanges" "input_bridge" "name" = Some exchange
    /\ is_short_string rk = true
    /\ is_short_string exchange = true
    /\ BasicPublish (PStr "ex.input") (PStr "dt.sim") ("task: run" ++ nl) 2
         "application/x-yaml" "00000000-0000-4000-8000-000000003039"
       = BasicPublish exchange rk body 2 "application/x-yaml" id
    /\ emitted (@send_simulation_request Demo.yaml Demo.host Demo.dt (HRef 0))
         (World [] [ODict [("task", HStr "run")]] 0)
       = [ BasicPublish (PStr "ex.input") (PStr "dt.sim") ("task: run" ++ nl) 2
             "application/x-yaml" "00000000-0000-4000-8000-000000003039" ].
Proof.
  apply (proj2 (@send_simulation_request_target Demo.yaml Demo.host Demo.dt (HRef 0)
                  (World [] [ODict [("task", HStr "run")]] 0))).
  vm_compute. left. reflexivity.
Defined.

(** X8: a call of [send_simulation_request] that raises has published
    nothing.  When the payload is not a mapping (an empty payload file loads
    as [None], a list stays a list) the exception is a [TypeError] and the
    world is untouched.  Otherwise the copy of the payload has been made; and
    the random source has been read, once, only when both settings exist and
    pika refused one of them as exchange or routing key (a number, say, or a
    string of more than 255 bytes): the message identifier is made before
    pika looks at the message. *)
Theorem send_simulation_request_failure {yaml : YamlLib} {host : Host}
    (self : client) (payload_data : hval) (w w' : world) (e : exn) :
  send_simulation_request self payload_data w = (Raise e, w') ->
  trace w' = trace w /\ is_Exception e = true
  /\ match mapping_items (store w) payload_data with
     | None => w' = w /\ exists msg, e = TypeError msg
     | Some items =>
         store w' = (store w ++ [ODict items])%list
         /\ (draws w' = draws w
             \/ (draws w' = S (draws w)
                 /\ exists rk exchange,
                      at2 (config self) "digital_twin" "routing_key_send" = Some rk
                      /\ at3 (config self) "exchanges" "input_bridge" "name" = Some exchange
                      /\ (is_short_string exchange && is_short_string rk)%bool = false))
     end.
Proof.
  intros E.
  pose proof (send_simulation_request_cases self payload_data w) as H.
  destruct (mapping_items (store w) payload_data) as [items|].
  - cbv zeta in H.
    destruct (reaches_wide_int _ _ _).
    { rewrite H in E. inversion E; subst. cbn. auto. }
    destruct (at2 (config self) "digital_twin" "routing_key_send") as [rk|];
      [destruct (at3 (config self) "exchanges" "input_bridge" "name") as [ex|]|].
    + destruct (is_short_string ex && is_short_string rk)%bool eqn:S.
      * rewrite H in E. discriminate.
      * destruct H as (e' & H & Hx). rewrite H in E. inversion E; subst.
        cbn [trace store draws]. repeat split; auto. right. split; [reflexivity|eauto].
    + destruct H as (e' & H & Hx). rewrite H in E. inversion E; subst.
      cbn [trace store draws]. auto.
    + destruct H as (e' & H & Hx). rewrite H in E. inversion E; subst.
      cbn [trace store draws]. auto.
  - destruct H as (msg & H). rewrite H in E. inversion E; subst.
    repeat split; eauto.
Qed.

Lemma send_simulation_request_failure_witness :
  let w := World [] [OList [HInt 1; HInt 2]; ODict [("task", HStr "run")]] 0 in
  snd (@send_simulation_request Demo.yaml Demo.host Demo.dt HNone w) = w
  /\ snd (@send_simulation_request Demo.yaml Demo.host Demo.dt (HRef 0) w) = w
  /\ trace (snd (@send_simulation_request Demo.yaml Demo.host numeric_key_client (HRef 1) w))
     = []
  /\ draws (snd (@send_simulation_request Demo.yaml Demo.host numeric_key_client (HRef 1) w))
     = 1.
Proof.
  intros w. split; [|split].
  - apply (@send_simulation_request_failure Demo.yaml Demo.host Demo.dt HNone w _
             (TypeError "'NoneType' object is not a mapping")).
    reflexivity.
  - apply (@send_simulation_request_failure Demo.yaml Demo.host Demo.dt (HRef 0) w _
             (TypeError "'list' object is not a mapping")).
    reflexivity.
  - split.
    + apply (@send_simulation_request_failure Demo.yaml Demo.host numeric_key_client
               (HRef 1) w _
               (AssertionError "A non-string value was supplied for self.routing_key")).
      reflexivity.
    + reflexivity.
Defined.

(** ** The script *)

Section Script.
Context {yaml : YamlLib} {host : Host} {broker : Broker}.

(** [main] from the point where the configuration is loaded and the primary
    client is built, case by case. *)
Lemma main_cases (cfg : pyval) (dt : client) (w w1 : world) :
  load_config "rabbitmq_use.yaml" w = (Ret cfg, w) ->
  RabbitMQClient_init cfg (log w [ThreadStart]) = (Ret dt, w1) ->
  main w =
  match subscript cfg "payload_file" with
  | inr e => (Raise e, w1)
  | inl pf =>
      match os_path_join script_dir pf with
      | inr e => (Raise e, w1)
      | inl path =>
          match read_file path with
          | None => (Ret Returned,
                     log w1 [Print ("Error: " ++ exn_str (FileNotFoundError path))])
          | Some content =>
              match safe_load content with
              | Malformed msg => (Ret Returned, log w1 [Print ("Error: " ++ msg)])
              | Crashed msg => (Ret Returned, log w1 [Print ("Error: " ++ msg)])
              | Loaded doc =>
                  let w2 := World (trace w1) (snd (build doc (store w1))) (draws w1) in
                  match send_simulation_request dt (fst (build doc (store w1))) w2 with
                  | (Ret _, w3) =>
                      if ctrl_c
                      then (Ret Returned, log w3 [press_ctrl_c; terminated_by_user])
                      else (Ret Blocked, log w3 [press_ctrl_c])
                  | (Raise e, w3) =>
                      (Ret Returned, log w3 [Print ("Error: " ++ exn_str e)])
                  end
              end
          end
      end
  end.
Proof.
  intros Hc Hi. unfold main.
  rewrite (bind_returns _ _ _ _ _ Hc), bind_emit, (bind_returns _ _ _ _ _ Hi).
  rewrite bind_lift. destruct (subscript cfg "payload_file") as [pf|e]; [|reflexivity].
  rewrite bind_lift. destruct (os_path_join script_dir pf) as [path|e]; [|reflexivity].
  unfold try_except, load_yaml_file, open_read, yaml_safe_load.
  destruct (read_file path) as [content|]; [|reflexivity].
  rewrite bind_bind, bind_ret.
  destruct (safe_load content) as [doc|msg|msg]; [|reflexivity|reflexivity].
  rewrite bind_bind, bind_ret. cbv zeta.
  unfold bind at 1. destruct (build doc (store w1)) as [v h]. cbn [fst snd].
  unfold bind at 1.
  destruct (send_simulation_request_run dt v (World (trace w1) h (draws w1)))
    as (r & w3 & -> & _ & [(_ & _ & e & -> & X) | (-> & _)]).
  - destruct e; try discriminate X; reflexivity.
  - unfold print. rewrite bind_emit. unfold sleep_forever, press_ctrl_c, terminated_by_user.
    destruct ctrl_c; [|reflexivity].
    unfold raise, bind, emit, ret. now rewrite log_log.
Qed.

Lemma quiet_no_print (evs : list event) (line : string) :
  Forall (fun x => is_publish x = false /\ is_print x = false) evs ->
  ~ In (Print line) evs.
Proof.
  intros F Hin. rewrite Forall_forall in F. destruct (F _ Hin) as [_ H]. discriminate H.
Qed.

(** How the script ends, and what the primary thread has done by then. *)
Lemma run_script_shape :
  let st := fst (run_script init_world) in
  let tr := trace (snd (run_script init_world)) in
  (st = Exit 1 /\ exists line, tr = [Print ("Error" ++ line)])
  \/ (st = Exit 1 /\ exists evs e,
        tr = (evs ++ [Traceback e])%list
        /\ is_Exception e = true
        /\ Forall (fun x => is_publish x = false /\ is_print x = false) evs)
  \/ (st = Exit 0 /\ exists evs line,
        tr = (evs ++ [Print ("Error: " ++ line)])%list
        /\ Forall (fun x => is_publish x = false /\ is_print x = false) evs)
  \/ (st = Sleeping /\ ctrl_c = false /\ exists evs pub,
        tr = (evs ++ [pub; press_ctrl_c])%list
        /\ is_publish pub = true
        /\ Forall (fun x => is_publish x = false /\ is_print x = false) evs)
  \/ (st = Exit 0 /\ ctrl_c = true /\ exists evs pub,
        tr = (evs ++ [pub; press_ctrl_c; terminated_by_user])%list
        /\ is_publish pub = true
        /\ Forall (fun x => is_publish x = false /\ is_print x = false) evs).
Proof.
  cbv zeta.
  pose proof (load_config_run "rabbitmq_use.yaml" init_world) as Hc.
  destruct (read_file "rabbitmq_use.yaml") as [content|].
  2:{ left. unfold run_script, main.
      rewrite (bind_raises _ _ _ _ _ Hc). split; [reflexivity|].
      exists (": Configuration file 'rabbitmq_use.yaml' not found."). reflexivity. }
  destruct (safe_load content) as [cfg|msg|msg].
  2:{ left. unfold run_script, main.
      rewrite (bind_raises _ _ _ _ _ Hc). split; [reflexivity|].
      exists (" parsing YAML file: " ++ msg). reflexivity. }
  2:{ right; left. unfold run_script, main.
      rewrite (bind_raises _ _ _ _ _ Hc). split; [reflexivity|].
      exists [], (LibraryError msg). repeat split. constructor. }
  destruct (RabbitMQClient_init_run cfg (log init_world [ThreadStart]))
    as (r & evs & Ei & F & _ & _).
  destruct (RabbitMQClient_init_requests cfg (log init_world [ThreadStart]))
    as (r' & evs' & Ei' & H).
  rewrite Ei in Ei'. inversion Ei' as [[Er Ew]]. subst r'. clear Ei'.
  assert (Forall (fun x => is_publish x = false /\ is_print x = false)
            (ThreadStart :: evs)) as F' by (constructor; [now split|exact F]).
  set (w1 := log (log init_world [ThreadStart]) evs) in *.
  assert (trace w1 = ThreadStart :: evs) as T1 by reflexivity.
  assert (forall e w2, trace w2 = ThreadStart :: evs -> is_Exception e = true ->
            main init_world = (Raise e, w2) ->
            fst (run_script init_world) = Exit 1
            /\ exists evs0 e0,
                 trace (snd (run_script init_world)) = (evs0 ++ [Traceback e0])%list
                 /\ is_Exception e0 = true
                 /\ Forall (fun x => is_publish x = false /\ is_print x = false) evs0)
    as Huncaught.
  { intros e w2 T Hx Em. unfold run_script. rewrite Em.
    destruct e; try discriminate Hx; (split; [reflexivity|]);
      eexists (ThreadStart :: evs), _; cbn [snd log trace]; rewrite T;
      (split; [reflexivity|]); (split; [reflexivity|exact F']). }
  assert (forall line w2, trace w2 = ThreadStart :: evs ->
            main init_world = (Ret Returned, log w2 [Print ("Error: " ++ line)]) ->
            fst (run_script init_world) = Exit 0
            /\ exists evs0 line0,
                 trace (snd (run_script init_world))
                 = (evs0 ++ [Print ("Error: " ++ line0)])%list
                 /\ Forall (fun x => is_publish x = false /\ is_print x = false) evs0)
    as Hhandled.
  { intros line w2 T Em. unfold run_script. rewrite Em. split; [reflexivity|].
    exists (ThreadStart :: evs), line. cbn [snd log trace]. rewrite T.
    split; [reflexivity|exact F']. }
  destruct r as [dt|e].
  2:{ right; left. apply (Huncaught e w1 T1).
      - destruct evs' as [|c rest]; [destruct H as (e' & [= <-] & Hx); exact Hx|].
        destruct H as (_ & _ & _ & Hx & _). now apply Hx.
      - unfold main.
        now rewrite (bind_returns _ _ _ _ _ Hc), bind_emit, (bind_raises _ _ _ _ _ Ei). }
  pose proof (main_cases cfg dt init_world w1 Hc Ei) as Em.
  destruct (subscript cfg "payload_file") as [pf|e] eqn:Epf.
  2:{ right; left. apply (Huncaught e w1 T1); [|exact Em].
      eapply subscript_exception; eassumption. }
  destruct (os_path_join script_dir pf) as [path|e] eqn:Ep.
  2:{ right; left. apply (Huncaught e w1 T1); [|exact Em].
      destruct pf; cbn in Ep; inversion Ep; reflexivity. }
  destruct (read_file path) as [pcontent|].
  2:{ right; right; left. eapply (Hhandled _ w1 T1). exact Em. }
  destruct (safe_load pcontent) as [doc|msg|msg].
  2:{ right; right; left. eapply (Hhandled _ w1 T1). exact Em. }
  2:{ right; right; left. eapply (Hhandled _ w1 T1). exact Em. }
  cbv zeta in Em.
  set (v := fst (build doc (store w1))) in *.
  set (w2 := World (trace w1) (snd (build doc (store w1))) (draws w1)) in *.
  destruct (send_simulation_request_run dt v w2)
    as (r & w3 & Es & _ & [(T & _ & e & -> & X) | (-> & _ & _ & ex & rk & T)]);
    rewrite Es in Em.
  - right; right; left. eapply (Hhandled _ w3); [|exact Em]. rewrite T. reflexivity.
  - right; right; right. destruct ctrl_c; [right|left].
    + unfold run_script. rewrite Em. split; [reflexivity|]. split; [reflexivity|].
      eexists (ThreadStart :: evs), _. cbn [snd log trace]. rewrite T.
      cbn [w2 trace]. rewrite T1, <- app_assoc. cbn [app].
      split; [reflexivity|]. split; [reflexivity|exact F'].
    + unfold run_script. rewrite Em. split; [reflexivity|]. split; [reflexivity|].
      eexists (ThreadStart :: evs), _. cbn [snd log trace]. rewrite T.
      cbn [w2 trace]. rewrite T1, <- app_assoc. cbn [app].
      split; [reflexivity|]. split; [reflexivity|exact F'].
Qed.

End Script.

Lemma no_publish_in (p q : event -> bool) (evs : list event) :
  Forall (fun x => p x = false /\ q x = false) evs ->
  existsb p evs = false /\ filter p evs = [].
Proof.
  induction 1 as [|x l [Hp _] _ [IH1 IH2]]; cbn; [auto|].
  now rewrite Hp, IH1, IH2.
Qed.

(** X9: a run of the script publishes at most one request, and it has
    published one exactly when it has reached its wait loop, that is when it
    has printed the invitation to press Ctrl+C.  The script stays in the loop
    unless the operator interrupts it; it then prints that it was terminated
    by the user and ends with status 0.  A run that ends without having
    reached the loop has published nothing. *)
Theorem one_request_per_run {yaml : YamlLib} {host : Host} {broker : Broker} :
  let st := fst (run_script init_world) in
  let tr := trace (snd (run_script init_world)) in
  length (filter is_publish tr) <= 1
  /\ (existsb is_publish tr = true <-> In press_ctrl_c tr)
  /\ (st = Sleeping <-> In press_ctrl_c tr /\ ctrl_c = false)
  /\ (In press_ctrl_c tr -> ctrl_c = true ->
      st = Exit 0 /\ exists evs, tr = (evs ++ [terminated_by_user])%list).
Proof.
  cbv zeta.
  destruct run_script_shape
    as [(-> & line & ->) | [(-> & evs & e & -> & _ & F)
        | [(-> & evs & line & -> & F)
          | [(-> & C & evs & pub & -> & P & F) | (-> & C & evs & pub & -> & P & F)]]]].
  - assert (~ In press_ctrl_c [Print ("Error" ++ line)]) as N
      by (intros [Hin|[]]; discriminate Hin).
    cbn [filter existsb is_publish orb length].
    split; [lia|]. split; [split; [discriminate|tauto]|].
    split; [split; [discriminate|tauto]|tauto].
  - destruct (no_publish_in _ _ _ F) as [E1 E2].
    assert (~ In press_ctrl_c (evs ++ [Traceback e])%list) as N.
    { intros Hin. apply in_app_or in Hin as [Hin|[Hin|[]]]; [|discriminate Hin].
      exact (quiet_no_print _ _ F Hin). }
    rewrite existsb_app, filter_app, E1, E2. cbn.
    split; [lia|]. split; [split; [discriminate|tauto]|].
    split; [split; [discriminate|tauto]|tauto].
  - destruct (no_publish_in _ _ _ F) as [E1 E2].
    assert (~ In press_ctrl_c (evs ++ [Print ("Error: " ++ line)])%list) as N.
    { intros Hin. apply in_app_or in Hin as [Hin|[Hin|[]]]; [|discriminate Hin].
      exact (quiet_no_print _ _ F Hin). }
    rewrite existsb_app, filter_app, E1, E2. cbn.
    split; [lia|]. split; [split; [discriminate|tauto]|].
    split; [split; [discriminate|tauto]|tauto].
  - destruct (no_publish_in _ _ _ F) as [E1 E2].
    assert (In press_ctrl_c (evs ++ [pub; press_ctrl_c])%list) as Y
      by (apply in_or_app; right; cbn; tauto).
    rewrite existsb_app, filter_app, E1, E2. cbn. rewrite P. cbn.
    split; [lia|]. split; [tauto|]. split; [tauto|]. intros _ C'. congruence.
  - destruct (no_publish_in _ _ _ F) as [E1 E2].
    assert (In press_ctrl_c (evs ++ [pub; press_ctrl_c; terminated_by_user])%list) as Y
      by (apply in_or_app; right; cbn; tauto).
    rewrite existsb_app, filter_app, E1, E2. cbn. rewrite P. cbn.
    split; [lia|]. split; [tauto|].
    split; [split; [discriminate|intros [_ C']; congruence]|].
    intros _ _. split; [reflexivity|].
    exists (evs ++ [pub; press_ctrl_c])%list. now rewrite <- app_assoc.
Qed.

Lemma one_request_per_run_witness :
  existsb is_publish
    (trace (snd (@run_script Demo.yaml Demo.host Demo.broker init_world))) = true
  /\ fst (@run_script Demo.yaml Demo.interrupted_host Demo.broker init_world) = Exit 0.
Proof.
  split.
  - apply (proj2 (proj1 (proj2 (@one_request_per_run Demo.yaml Demo.host Demo.broker)))).
    vm_compute. repeat (first [left; reflexivity | right]).
  - apply (proj2 (proj2 (proj2 (@one_request_per_run Demo.yaml Demo.interrupted_host
                                  Demo.broker)))).
    + vm_compute. repeat (first [left; reflexivity | right]).
    + reflexivity.
Defined.

(** X10: what the exit status of the script tells about the primary thread
    (the listener thread prints to the same output).  Status 0 means either
    that loading or sending the payload failed, and then the last thing the
    primary thread did was to print a line [Error: ...], with nothing
    published; or that the operator interrupted the wait, and then the
    request was published and the last line is [Program terminated by the
    user.].  Status 1 means either that the configuration file was missing
    or did not parse, and the diagnostic is all the script did, or that an
    exception went uncaught, and then the primary thread printed nothing
    before the traceback. *)
Theorem exit_status_meaning {yaml : YamlLib} {host : Host} {broker : Broker} :
  let st := fst (run_script init_world) in
  let tr := trace (snd (run_script init_world)) in
  (st = Exit 0 ->
     (exists evs line,
        tr = (evs ++ [Print ("Error: " ++ line)])%list
        /\ existsb is_print evs = false /\ existsb is_publish evs = false)
     \/ (ctrl_c = true
         /\ exists evs pub,
              tr = (evs ++ [pub; press_ctrl_c; terminated_by_user])%list
              /\ is_publish pub = true
              /\ existsb is_print evs = false /\ existsb is_publish evs = false))
  /\ (st = Exit 1 ->
      (exists line, tr = [Print line])
      \/ exists evs e, tr = (evs ++ [Traceback e])%list
                       /\ is_Exception e = true /\ existsb is_print evs = false).
Proof.
  cbv zeta.
  assert (forall evs, Forall (fun x => is_publish x = false /\ is_print x = false) evs ->
            existsb is_print evs = false /\ existsb is_publish evs = false) as Q.
  { intros evs F. split.
    - apply (no_publish_in is_print is_publish).
      eapply Forall_impl; [|exact F]. now intros a [? ?].
    - apply (no_publish_in is_publish is_print). exact F. }
  destruct run_script_shape
    as [(-> & line & ->) | [(-> & evs & e & -> & Hx & F)
        | [(-> & evs & line & -> & F)
          | [(-> & C & evs & pub & -> & P & F) | (-> & C & evs & pub & -> & P & F)]]]].
  - split; [discriminate|]. intros _. left. eauto.
  - split; [discriminate|]. intros _. right.
    exists evs, e. repeat split; auto. now apply Q.
  - split; [|discriminate]. intros _. left.
    exists evs, line. split; [reflexivity|]. now apply Q.
  - split; discriminate.
  - split; [|discriminate]. intros _. right. split; [exact C|].
    exists evs, pub. split; [reflexivity|]. split; [exact P|]. now apply Q.
Qed.

Lemma exit_status_meaning_witness :
  (exists evs line,
     trace (snd (@run_script Demo.yaml (Demo.host_with true false (fun _ => 0%Z))
                   Demo.broker init_world))
     = (evs ++ [Print ("Error: " ++ line)])%list
     /\ existsb is_print evs = false /\ existsb is_publish evs = false)
  \/ (@ctrl_c (Demo.host_with true false (fun _ => 0%Z)) = true
      /\ exists evs pub,
           trace (snd (@run_script Demo.yaml (Demo.host_with true false (fun _ => 0%Z))
                         Demo.broker init_world))
           = (evs ++ [pub; press_ctrl_c; terminated_by_user])%list
           /\ is_publish pub = true
           /\ existsb is_print evs = false /\ existsb is_publish evs = false).
Proof.
  apply (proj1 (@exit_status_meaning Demo.yaml
                  (Demo.host_with true false (fun _ => 0%Z)) Demo.broker)).
  vm_compute. reflexivity.
Defined.

(** X11: what [load_config] does not report.  It catches a missing file and
    a YAML syntax error only.  When parsing raises another exception, it
    goes uncaught: status 1 and a traceback, nothing printed, no thread
    started.  When the file holds a document that is not a mapping (an empty
    file loads as [None]), [load_config] returns it, and the constructor
    fails on the first lookup with a [TypeError], uncaught, before any
    connection is attempted. *)
Theorem unreported_configuration_errors
    {yaml : YamlLib} {host : Host} {broker : Broker} (content : list Byte.byte) :
  read_file "rabbitmq_use.yaml" = Some content ->
  (forall msg, safe_load content = Crashed msg ->
     run_script init_world = (Exit 1, log init_world [Traceback (LibraryError msg)]))
  /\ (forall cfg, safe_load content = Loaded cfg ->
        (forall items, cfg <> PDict items) ->
        exists msg,
          subscript cfg "digital_twin" = inr (TypeError msg)
          /\ run_script init_world
             = (Exit 1, log init_world [ThreadStart; Traceback (TypeError msg)])).
Proof.
  intros Hf.
  pose proof (load_config_run "rabbitmq_use.yaml" init_world) as Hc. rewrite Hf in Hc.
  split.
  - intros msg L. rewrite L in Hc. unfold run_script, main.
    now rewrite (bind_raises _ _ _ _ _ Hc).
  - intros cfg L Hn. rewrite L in Hc. unfold run_script, main.
    rewrite (bind_returns _ _ _ _ _ Hc), bind_emit.
    unfold RabbitMQClient_init. rewrite !bind_bind, bind_lift.
    destruct cfg; try (now destruct (Hn items)); eexists; split; reflexivity.
Qed.

Lemma unreported_configuration_errors_witness :
  let host := {| read_file := fun _ => Some [];
                 script_dir := "/opt/client";
                 urandom16 := fun _ => 0%Z;
                 ctrl_c := false |} in
  @run_script Demo.yaml host Demo.broker init_world
  = (Exit 1, log init_world
               [ThreadStart; Traceback (TypeError "'NoneType' object is not subscriptable")]).
Proof.
  intros host.
  destruct (proj2 (@unreported_configuration_errors Demo.yaml host Demo.broker []
                     eq_refl) PNone eq_refl) as (msg & Em & E).
  - discriminate.
  - rewrite E. inversion Em. reflexivity.
Defined.

(** A loaded document that is not a mapping is not a mapping in the store
    either: the dict display refuses it, naming its type. *)
Lemma dict_display_not_mapping (doc : pyval) (w : world) :
  (forall items, doc <> PDict items) ->
  let w2 := World (trace w) (snd (build doc (store w))) (draws w) in
  dict_display (fst (build doc (store w))) w2
  = (Raise (TypeError ("'" ++ type_name doc ++ "' object is not a mapping")), w2).
Proof.
  intros Hn. cbv zeta.
  destruct doc as [| | | |l|items]; try reflexivity; [|now destruct (Hn items)].
  cbn [build].
  match goal with |- context [let '(_, _) := ?t in _] => destruct t as [xs h1] end.
  cbn [alloc fst snd]. unfold dict_display. cbn [store].
  now rewrite nth_error_app2, Nat.sub_diag by lia.
Qed.

(** X12: a payload file that holds something else than a mapping (an empty
    file, which loads as [None], a scalar, a list) is not sent: the script
    prints [Error: '<type>' object is not a mapping] with the type of what
    was loaded, publishes nothing and ends with status 0. *)
Theorem payload_not_a_mapping {yaml : YamlLib} {host : Host} {broker : Broker}
    (cfg doc : pyval) (dt : client) (w1 : world) (pf : string)
    (content : list Byte.byte) :
  load_config "rabbitmq_use.yaml" init_world = (Ret cfg, init_world) ->
  RabbitMQClient_init cfg (log init_world [ThreadStart]) = (Ret dt, w1) ->
  subscript cfg "payload_file" = inl (PStr pf) ->
  read_file (path_join script_dir pf) = Some content ->
  safe_load content = Loaded doc ->
  (forall items, doc <> PDict items) ->
  fst (run_script init_world) = Exit 0
  /\ trace (snd (run_script init_world))
     = (trace w1 ++ [Print ("Error: '" ++ type_name doc ++ "' object is not a mapping")])%list.
Proof.
  intros Hc Hi Hpf Hr Hl Hn.
  pose proof (main_cases cfg dt init_world w1 Hc Hi) as Em.
  rewrite Hpf in Em. cbn [os_path_join] in Em. rewrite Hr, Hl in Em. cbv zeta in Em.
  unfold send_simulation_request in Em.
  rewrite (bind_raises _ _ _ _ _ (dict_display_not_mapping doc w1 Hn)) in Em.
  unfold run_script. rewrite Em. split; reflexivity.
Qed.

Lemma payload_not_a_mapping_witness :
  let host := {| read_file := fun path =>
                   if String.eqb path "rabbitmq_use.yaml"
                   then Some (list_byte_of_string Demo.config_text)
                   else Some [];
                 script_dir := "/opt/client";
                 urandom16 := fun _ => 0%Z;
                 ctrl_c := false |} in
  fst (@run_script Demo.yaml host Demo.broker init_world) = Exit 0
  /\ trace (snd (@run_script Demo.yaml host Demo.broker init_world))
     = [ ThreadStart;
         Connect false (PStr "localhost") (PInt 5672) (PStr "/") (PStr "guest")
           (PStr "guest") (PInt 600);
         OpenChannel;
         ExchangeDeclare (PStr "ex.input") (PStr "topic") (PBool true);
         ExchangeDeclare (PStr "ex.result") (PStr "topic") (PBool true);
         QueueDeclare "Q.dt.result" (PBool true);
         QueueBind (PStr "ex.result") "Q.dt.result" (PStr "*.result");
         Print "Error: 'NoneType' object is not a mapping" ].
Proof.
  intros host.
  apply (@payload_not_a_mapping Demo.yaml host Demo.broker Demo.config_doc PNone
           Demo.dt
           (World [ ThreadStart;
                    Connect false (PStr "localhost") (PInt 5672) (PStr "/") (PStr "guest")
                      (PStr "guest") (PInt 600);
                    OpenChannel;
                    ExchangeDeclare (PStr "ex.input") (PStr "topic") (PBool true);
                    ExchangeDeclare (PStr "ex.result") (PStr "topic") (PBool true);
                    QueueDeclare "Q.dt.result" (PBool true);
                    QueueBind (PStr "ex.result") "Q.dt.result" (PStr "*.result") ] [] 0)
           "simulation.yaml" []).
  - vm_compute. reflexivity.
  - vm_compute. reflexivity.
  - reflexivity.
  - reflexivity.
  - reflexivity.
  - discriminate.
Defined.

